(** * Filterer: a shallow embedding of [Filterer.py]

    The application loads the lines of a text file, filters the rows that
    contain a search string and optionally saves the rows shown in the display
    into a new file.  This development embeds the part of [MainWindow] that
    carries the logic ([filter_display], [open_file], [save_file],
    [close_file], [_detect_encoding]) together with the pieces of the Python
    run time these methods call, and states the properties of the design
    document over that embedding.

    Conventions

    - a Python [str] is a list of Unicode code points ([list N]);
    - the content of a file is a [list byte];
    - paths and encoding labels are [string]s;
    - the file system is a finite map from paths to contents;
    - a method of [MainWindow] is a computation in a state-and-exception
      monad over the window's attributes and the file system, so that the
      attributes assigned before an exception is raised stay assigned;
    - services of the run time that the repository does not define
      ([str.lower], [chardet.detect], codecs other than the built-in ones
      embedded below, [os.linesep], the locale's preferred encoding, font
      metrics, the text a [QPlainTextEdit] gives back) are fields of the
      class [Runtime]; theorems hold for every run time. *)

From Stdlib Require Import NArith ZArith List Bool Lia.
From Stdlib Require Import Strings.Byte Strings.Ascii Strings.String.
From stdpp Require Import base option list strings gmap.

Local Open Scope list_scope.

(** ** Text *)

Module Text.

(** A Python [str]: a sequence of code points. *)
Definition str := list N.

Definition str_eq_dec : forall x y : str, {x = y} + {x <> y} :=
  List.list_eq_dec N.eq_dec.

Definition LF : N := 10.
Definition CR : N := 13.

(** Code points of an ASCII literal, for writing examples. *)
Fixpoint u (s : string) : str :=
  match s with
  | EmptyString => []
  | String a s' => N_of_ascii a :: u s'
  end.

(** Bytes of an ASCII literal. *)
Fixpoint b (s : string) : list byte :=
  match s with
  | EmptyString => []
  | String a s' => byte_of_ascii a :: b s'
  end.

(** [s.startswith(prefix)] *)
Fixpoint startswith (prefix s : str) : bool :=
  match prefix, s with
  | [], _ => true
  | _ :: _, [] => false
  | p :: prefix', c :: s' => (p =? c)%N && startswith prefix' s'
  end.

(** [needle in hay] on strings: [needle] occurs in [hay] as a contiguous
    block. *)
Fixpoint contains (needle hay : str) : bool :=
  startswith needle hay ||
  match hay with
  | [] => false
  | _ :: hay' => contains needle hay'
  end.

(** [''.join(rows)] *)
Definition join (rows : list str) : str := concat rows.

(** [max(rows, key=len)]: the first row of maximal length; [None] stands for
    the [ValueError] that [max] raises on an empty sequence. *)
Fixpoint max_by_len (rows : list str) : option str :=
  match rows with
  | [] => None
  | r :: rows' =>
    match max_by_len rows' with
    | None => Some r
    | Some m => if (length r <? length m)%nat then Some m else Some r
    end
  end.

(** Universal newlines on reading (text mode with [newline=None]): the
    terminators [\r\n] and [\r] are translated into [\n]. *)
Fixpoint universal_newlines (s : str) : str :=
  match s with
  | [] => []
  | c :: s' =>
    if (c =? CR)%N then
      match s' with
      | c' :: s'' =>
        if (c' =? LF)%N then LF :: universal_newlines s''
        else LF :: universal_newlines s'
      | [] => [LF]
      end
    else c :: universal_newlines s'
  end.

(** [f.readlines()] on already translated text: the text is cut after every
    [\n], which stays at the end of its line. *)
Fixpoint readlines (s : str) : list str :=
  match s with
  | [] => []
  | c :: s' =>
    if (c =? LF)%N then [c] :: readlines s'
    else match readlines s' with
         | [] => [[c]]
         | l :: ls => (c :: l) :: ls
         end
  end.

(** Newline translation on writing (text mode with [newline=None]): every
    [\n] is written as [os.linesep]. *)
Definition translate_newlines_out (linesep : str) (s : str) : str :=
  flat_map (fun c => if (c =? LF)%N then linesep else [c]) s.

(** [f.readline(limit)] on a binary file positioned at its start: the bytes
    up to and including the first [\n], at most [limit] of them. *)
Fixpoint readline_bytes (limit : nat) (bs : list byte) : list byte :=
  match limit, bs with
  | O, _ => []
  | _, [] => []
  | S n, x :: bs' =>
    if Byte.eqb x x0a then [x] else x :: readline_bytes n bs'
  end.
#[global] Arguments readline_bytes : simpl never.

(** [needle] occurs in [hay] as a substring. *)
Definition is_substring (needle hay : str) : Prop :=
  exists pre post, hay = pre ++ needle ++ post.

(** A line as [readlines] produces them: not empty, and with no [\n] before
    its last character. *)
Definition line_shaped (l : str) : Prop :=
  l <> [] /\ forall pre post, l = pre ++ LF :: post -> post = [].

(** The line terminators that [os.linesep] can be. *)
Definition is_linesep (sep : str) : Prop :=
  sep = [LF] \/ sep = [CR; LF] \/ sep = [CR].

End Text.
Export Text.

(** ** Codecs *)

Module Codecs.

(** A codec in strict error mode: [None] stands for [UnicodeDecodeError]
    (decoding) or [UnicodeEncodeError] (encoding). *)
Record Codec := {
  decode : list byte -> option str;
  encode : str -> option (list byte)
}.

Definition bytes_of (ns : list N) : option (list byte) := mapM Byte.of_N ns.

Definition encode_with (f : N -> option (list N)) (s : str) : option (list byte) :=
  ns ← mapM f s; bytes_of (concat ns).

(** *** ascii *)

Definition ascii_decode (bs : list byte) : option str :=
  mapM (fun x => let n := Byte.to_N x in
                 if (n <? 128)%N then Some n else None) bs.

Definition ascii_encode : str -> option (list byte) :=
  encode_with (fun c => if (c <? 128)%N then Some [c] else None).

Definition ascii_codec : Codec :=
  {| decode := ascii_decode; encode := ascii_encode |}.

(** *** latin-1 (ISO-8859-1) *)

Definition latin1_decode (bs : list byte) : option str :=
  Some (map Byte.to_N bs).

Definition latin1_encode : str -> option (list byte) :=
  encode_with (fun c => if (c <? 256)%N then Some [c] else None).

Definition latin1_codec : Codec :=
  {| decode := latin1_decode; encode := latin1_encode |}.

(** *** cp1252 (Windows-1252) *)

(** The part of the code page that differs from latin-1: bytes 0x80-0x9f.
    The bytes 0x81, 0x8d, 0x8f, 0x90 and 0x9d are not assigned. *)
Definition cp1252_table : list (N * N) :=
  [ (128, 8364); (130, 8218); (131, 402); (132, 8222); (133, 8230);
    (134, 8224); (135, 8225); (136, 710); (137, 8240); (138, 352);
    (139, 8249); (140, 338); (142, 381); (145, 8216); (146, 8217);
    (147, 8220); (148, 8221); (149, 8226); (150, 8211); (151, 8212);
    (152, 732); (153, 8482); (154, 353); (155, 8250); (156, 339);
    (158, 382); (159, 376) ]%N.

Definition cp1252_decode_byte (n : N) : option N :=
  if ((n <? 128) || (159 <? n))%N then Some n
  else snd <$> find (fun p => (fst p =? n)%N) cp1252_table.

Definition cp1252_encode_char (c : N) : option (list N) :=
  if ((c <? 128) || ((159 <? c) && (c <? 256)))%N then Some [c]
  else (fun p => [fst p]) <$> find (fun p => (snd p =? c)%N) cp1252_table.

Definition cp1252_decode (bs : list byte) : option str :=
  mapM (fun x => cp1252_decode_byte (Byte.to_N x)) bs.

Definition cp1252_codec : Codec :=
  {| decode := cp1252_decode; encode := encode_with cp1252_encode_char |}.

(** *** utf-8 *)

Definition is_continuation (x : N) : bool := ((128 <=? x) && (x <=? 191))%N.
Definition is_surrogate (c : N) : bool := ((55296 <=? c) && (c <=? 57343))%N.

(** Strict UTF-8: no overlong forms, no surrogates, nothing above U+10FFFF,
    no truncated sequence. *)
Fixpoint utf8_decode_N (bs : list N) : option str :=
  match bs with
  | [] => Some []
  | b1 :: r1 =>
    if (b1 <? 128)%N then cons b1 <$> utf8_decode_N r1
    else if (b1 <? 194)%N then None
    else if (b1 <? 224)%N then
      match r1 with
      | b2 :: r2 =>
        if is_continuation b2
        then cons ((b1 - 192) * 64 + (b2 - 128))%N <$> utf8_decode_N r2
        else None
      | _ => None
      end
    else if (b1 <? 240)%N then
      match r1 with
      | b2 :: b3 :: r3 =>
        let c := ((b1 - 224) * 4096 + (b2 - 128) * 64 + (b3 - 128))%N in
        if is_continuation b2 && is_continuation b3
           && (2048 <=? c)%N && negb (is_surrogate c)
        then cons c <$> utf8_decode_N r3
        else None
      | _ => None
      end
    else if (b1 <? 245)%N then
      match r1 with
      | b2 :: b3 :: b4 :: r4 =>
        let c := ((b1 - 240) * 262144 + (b2 - 128) * 4096
                  + (b3 - 128) * 64 + (b4 - 128))%N in
        if is_continuation b2 && is_continuation b3 && is_continuation b4
           && (65536 <=? c)%N && (c <=? 1114111)%N
        then cons c <$> utf8_decode_N r4
        else None
      | _ => None
      end
    else None
  end.

Definition utf8_decode (bs : list byte) : option str :=
  utf8_decode_N (map Byte.to_N bs).

Definition utf8_encode_char (c : N) : option (list N) :=
  if (c <? 128)%N then Some [c]
  else if (c <? 2048)%N then Some [192 + c / 64; 128 + c mod 64]%N
  else if (c <? 65536)%N then
    if is_surrogate c then None
    else Some [224 + c / 4096; 128 + (c / 64) mod 64; 128 + c mod 64]%N
  else if (c <=? 1114111)%N then
    Some [240 + c / 262144; 128 + (c / 4096) mod 64;
          128 + (c / 64) mod 64; 128 + c mod 64]%N
  else None.

Definition utf8_codec : Codec :=
  {| decode := utf8_decode; encode := encode_with utf8_encode_char |}.

(** *** Looking a label up *)

Definition lower_ascii (a : ascii) : ascii :=
  let n := nat_of_ascii a in
  if ((65 <=? n) && (n <=? 90))%nat then ascii_of_nat (n + 32) else a.

(** Labels are compared without case, and with [-] and space read as [_]. *)
Fixpoint normalize_label (s : string) : string :=
  match s with
  | EmptyString => EmptyString
  | String a s' =>
    String (if (Ascii.eqb a "-" || Ascii.eqb a " ")%bool then "_"%char
            else lower_ascii a)
           (normalize_label s')
  end.

Definition is_alias (n : string) (names : list string) : bool :=
  existsb (String.eqb n) names.

(** The built-in codecs embedded here, under their usual aliases. *)
Definition builtin_codec (label : string) : option Codec :=
  let n := normalize_label label in
  if is_alias n ["utf_8"; "utf8"; "u8"; "utf"] then Some utf8_codec
  else if is_alias n ["ascii"; "us_ascii"; "646"] then Some ascii_codec
  else if is_alias n ["latin_1"; "latin1"; "iso_8859_1"; "iso8859_1"; "l1"]
       then Some latin1_codec
  else if is_alias n ["cp1252"; "windows_1252"; "1252"] then Some cp1252_codec
  else None.

End Codecs.
Export Codecs.

(** ** The run time the application calls into *)

Class Runtime := {
  (** [str.lower] *)
  str_lower : str -> str;
  str_lower_empty : str_lower [] = [];
  (** [chardet.detect(data)['encoding']]; [None] is Python's [None] *)
  chardet_detect : list byte -> option string;
  (** the codecs registered besides the built-in ones of [builtin_codec] *)
  other_codecs : string -> option Codec;
  (** [locale.getpreferredencoding(False)], used for [encoding=None] *)
  preferred_encoding : string;
  (** [os.linesep] *)
  linesep : str;
  (** [self.display.fontMetrics().width(text)], for the font that the
      display has when [open_file] runs.  The font is not part of the window
      below (the zoom buttons that change it are not modelled), so widths
      asked for by different loads are not compared. *)
  font_width : str -> Z;
  (** what [toPlainText()] gives back for a text set with [setPlainText] *)
  plain_text : str -> str
}.

(** ** The window and the file system *)

Module Window.

(** The attributes of [MainWindow] that the methods below read or write.
    The widgets are reduced to the properties the methods touch. *)
Record MainWindow := {
  encoding : option string;             (* self.encoding *)
  textfile_data : option (list str);    (* self.textfile_data *)
  line_edit_text : str;                 (* self.line_edit.text() *)
  line_edit_disabled : bool;
  filter_button_disabled : bool;
  display_text : str;                   (* text held by self.display *)
  display_disabled : bool;
  open_file_path_label : string;
  live_filtering : bool;   (* textChanged connected to filter_button.click *)
  width : Z   (* the width last asked for, by setGeometry or self.resize;
                 the window on screen is never narrower than the minimum
                 width of its layout, which is not modelled *)
}.

Record World := {
  win : MainWindow;
  files : gmap string (list byte)
}.

(** [MainWindow.__init__]: no text data is loaded, the encoding is unknown,
    the tools are disabled and live filtering is connected. *)
Definition init : MainWindow :=
  {| encoding := None; textfile_data := None;
     line_edit_text := []; line_edit_disabled := true;
     filter_button_disabled := true;
     display_text := []; display_disabled := true;
     open_file_path_label := ""; live_filtering := true; width := 0 |}.

Definition with_encoding (v : option string) (m : MainWindow) : MainWindow :=
  {| encoding := v; textfile_data := textfile_data m;
     line_edit_text := line_edit_text m;
     line_edit_disabled := line_edit_disabled m;
     filter_button_disabled := filter_button_disabled m;
     display_text := display_text m; display_disabled := display_disabled m;
     open_file_path_label := open_file_path_label m;
     live_filtering := live_filtering m; width := width m |}.

Definition with_textfile_data (v : option (list str)) (m : MainWindow) : MainWindow :=
  {| encoding := encoding m; textfile_data := v;
     line_edit_text := line_edit_text m;
     line_edit_disabled := line_edit_disabled m;
     filter_button_disabled := filter_button_disabled m;
     display_text := display_text m; display_disabled := display_disabled m;
     open_file_path_label := open_file_path_label m;
     live_filtering := live_filtering m; width := width m |}.

Definition with_line_edit_text (v : str) (m : MainWindow) : MainWindow :=
  {| encoding := encoding m; textfile_data := textfile_data m;
     line_edit_text := v;
     line_edit_disabled := line_edit_disabled m;
     filter_button_disabled := filter_button_disabled m;
     display_text := display_text m; display_disabled := display_disabled m;
     open_file_path_label := open_file_path_label m;
     live_filtering := live_filtering m; width := width m |}.

Definition with_line_edit_disabled (v : bool) (m : MainWindow) : MainWindow :=
  {| encoding := encoding m; textfile_data := textfile_data m;
     line_edit_text := line_edit_text m;
     line_edit_disabled := v;
     filter_button_disabled := filter_button_disabled m;
     display_text := display_text m; display_disabled := display_disabled m;
     open_file_path_label := open_file_path_label m;
     live_filtering := live_filtering m; width := width m |}.

Definition with_filter_button_disabled (v : bool) (m : MainWindow) : MainWindow :=
  {| encoding := encoding m; textfile_data := textfile_data m;
     line_edit_text := line_edit_text m;
     line_edit_disabled := line_edit_disabled m;
     filter_button_disabled := v;
     display_text := display_text m; display_disabled := display_disabled m;
     open_file_path_label := open_file_path_label m;
     live_filtering := live_filtering m; width := width m |}.

Definition with_display_text (v : str) (m : MainWindow) : MainWindow :=
  {| encoding := encoding m; textfile_data := textfile_data m;
     line_edit_text := line_edit_text m;
     line_edit_disabled := line_edit_disabled m;
     filter_button_disabled := filter_button_disabled m;
     display_text := v; display_disabled := display_disabled m;
     open_file_path_label := open_file_path_label m;
     live_filtering := live_filtering m; width := width m |}.

Definition with_display_disabled (v : bool) (m : MainWindow) : MainWindow :=
  {| encoding := encoding m; textfile_data := textfile_data m;
     line_edit_text := line_edit_text m;
     line_edit_disabled := line_edit_disabled m;
     filter_button_disabled := filter_button_disabled m;
     display_text := display_text m; display_disabled := v;
     open_file_path_label := open_file_path_label m;
     live_filtering := live_filtering m; width := width m |}.

Definition with_open_file_path_label (v : string) (m : MainWindow) : MainWindow :=
  {| encoding := encoding m; textfile_data := textfile_data m;
     line_edit_text := line_edit_text m;
     line_edit_disabled := line_edit_disabled m;
     filter_button_disabled := filter_button_disabled m;
     display_text := display_text m; display_disabled := display_disabled m;
     open_file_path_label := v;
     live_filtering := live_filtering m; width := width m |}.

(** [self.resize(v, self.height())]: records the width asked for. *)
Definition with_width (v : Z) (m : MainWindow) : MainWindow :=
  {| encoding := encoding m; textfile_data := textfile_data m;
     line_edit_text := line_edit_text m;
     line_edit_disabled := line_edit_disabled m;
     filter_button_disabled := filter_button_disabled m;
     display_text := display_text m; display_disabled := display_disabled m;
     open_file_path_label := open_file_path_label m;
     live_filtering := live_filtering m; width := v |}.

End Window.
Export Window.

(** ** State and exceptions *)

Module Exec.

Inductive exn :=
  | OSError | LookupError | UnicodeDecodeError | UnicodeEncodeError
  | ValueError | TypeError.

Inductive Res (A : Type) :=
  | Ok (a : A)
  | Raise (e : exn).
Arguments Ok {A} a.
Arguments Raise {A} e.

(** A method run: from the world before to an outcome and the world after.
    The world after a [Raise] is the world as the method left it. *)
Definition M (A : Type) : Type := World -> Res A * World.

Definition ret {A} (a : A) : M A := fun w => (Ok a, w).

Definition bind {A B} (m : M A) (k : A -> M B) : M B :=
  fun w => match m w with
           | (Ok a, w') => k a w'
           | (Raise e, w') => (Raise e, w')
           end.

Definition raise {A} (e : exn) : M A := fun w => (Raise e, w).

(** [try: m  except Exception: handler] *)
Definition try_except {A} (m : M A) (handler : M A) : M A :=
  fun w => match m w with
           | (Ok a, w') => (Ok a, w')
           | (Raise _, w') => handler w'
           end.

(** Read an attribute of [self]. *)
Definition attr {A} (f : MainWindow -> A) : M A := fun w => (Ok (f (win w)), w).

(** Assign attributes of [self]. *)
Definition assign (f : MainWindow -> MainWindow) : M unit :=
  fun w => (Ok tt, {| win := f (win w); files := files w |}).

(** An outcome computed without touching the world. *)
Definition lift {A} (r : Res A) : M A := fun w => (r, w).

(** Unwrap an optional value, raising [e] when there is none. *)
Definition or_raise {A} (e : exn) (o : option A) : M A :=
  match o with
  | Some a => ret a
  | None => raise e
  end.

End Exec.
Export Exec.

(** The methods are written with stdpp's monad notation. *)
#[global] Instance M_ret : MRet M := @ret.
#[global] Instance M_bind : MBind M := fun A B k m => bind m k.

(** ** The methods of [MainWindow] *)

Section Methods.

Context {R : Runtime}.

(** [codecs.lookup]: [None] stands for [LookupError]. *)
Definition lookup_codec (label : string) : option Codec :=
  match builtin_codec label with
  | Some c => Some c
  | None => other_codecs label
  end.

(** The encoding that [io.open(..., encoding=enc)] uses. *)
Definition resolve_encoding (enc : option string) : string :=
  default preferred_encoding enc.

(** The bytes of a file; a missing file raises [OSError]. *)
Definition read_bytes (file_path : string) : M (list byte) :=
  fun w => or_raise OSError (files w !! file_path) w.

(** What reading all the lines of a text file opened with
    [encoding=enc] gives on the content [bs]: the codec is looked up, the
    content decoded, the newlines translated and the text cut into lines. *)
Definition decode_lines (enc : option string) (bs : list byte) : Res (list str) :=
  match lookup_codec (resolve_encoding enc) with
  | None => Raise LookupError
  | Some c =>
    match decode c bs with
    | None => Raise UnicodeDecodeError
    | Some text => Ok (readlines (universal_newlines text))
    end
  end.

(** [with io.open(file_path, encoding=enc) as f: f.readlines()] *)
Definition open_readlines (file_path : string) (enc : option string) : M (list str) :=
  bs ← read_bytes file_path;
  lift (decode_lines enc bs).

(** [io.open(name, "w", encoding=enc)] followed by [f.write(text)] and the
    close of the file: the file is created empty before the codec is looked
    up and before the text is encoded. *)
Definition write_bytes (name : string) (bs : list byte) : M unit :=
  fun w => (Ok tt, {| win := win w; files := <[name := bs]> (files w) |}).

Definition open_write (name : string) (enc : option string) (text : M str) : M unit :=
  write_bytes name [];;
  c ← or_raise LookupError (lookup_codec (resolve_encoding enc));
  t ← text;
  bs ← or_raise UnicodeEncodeError (encode c (translate_newlines_out linesep t));
  write_bytes name bs.

(** [self.textfile_data] where a list is expected: [None] raises
    [TypeError]. *)
Definition self_textfile_data : M (list str) :=
  d ← attr textfile_data; or_raise TypeError d.

Definition display_setPlainText (s : str) : M unit := assign (with_display_text s).

Definition display_toPlainText : M str :=
  t ← attr display_text; mret (plain_text t).

(** [file_path.replace('/', '\\')] *)
Fixpoint replace_slash (s : string) : string :=
  match s with
  | EmptyString => EmptyString
  | String a s' => String (if Ascii.eqb a "/" then "\"%char else a) (replace_slash s')
  end.

(** The rows that [filter_display] shows for the text entered in the line
    edit. *)
Definition filter_rows (filter_text_data : str) (textfile_data : list str) : list str :=
  match filter_text_data with
  | [] => textfile_data
  | _ :: _ =>
    List.filter
      (fun i => contains (str_lower filter_text_data) (str_lower i))
      textfile_data
  end.

Definition filter_display : M unit :=
  filter_text_data ← attr line_edit_text;
  data ← self_textfile_data;
  display_setPlainText (join (filter_rows filter_text_data data)).

(** [filter_button.click()]: a disabled button emits nothing; an enabled one
    emits [pressed], which is connected to [filter_display]. *)
Definition filter_button_click : M unit :=
  disabled ← attr filter_button_disabled;
  if disabled : bool then mret tt else filter_display.

(** [line_edit.setText(s)]: [textChanged] is emitted when the text changes,
    and is connected to [filter_button.click] under live filtering. *)
Definition line_edit_setText (s : str) : M unit :=
  old ← attr line_edit_text;
  assign (with_line_edit_text s);;
  live ← attr live_filtering;
  if bool_decide (s = old) then mret tt
  else if live : bool then filter_button_click else mret tt.

Definition _detect_encoding (file_path : string) : M (option string) :=
  bs ← read_bytes file_path;
  mret (chardet_detect (readline_bytes 1000 bs)).

(** [open_file], for the path [file_path] that the file dialog returned (the
    empty string when the dialog was cancelled). *)
Definition open_file (file_path : string) : M unit :=
  if bool_decide (file_path = "") then mret tt
  else
    enc ← _detect_encoding file_path;
    assign (with_encoding enc);;
    try_except
      (rows ← open_readlines file_path enc;
       assign (with_textfile_data (Some rows)))
      (rows ← open_readlines file_path (Some "utf-8");
       assign (with_textfile_data (Some rows)));;
    data ← self_textfile_data;
    longest_textline ← or_raise ValueError (max_by_len data);
    display_setPlainText (join data);;
    (match data with
     | _ :: _ =>
       assign (with_filter_button_disabled false);;
       assign (with_line_edit_disabled false);;
       assign (with_display_disabled false);;
       assign (with_width (font_width longest_textline + 50))
     | [] =>
       assign (with_filter_button_disabled true);;
       assign (with_line_edit_disabled true)
     end);;
    assign (with_open_file_path_label (replace_slash file_path)).

(** [save_file], for the path [name] that the file dialog returned. *)
Definition save_file (name : string) : M unit :=
  if bool_decide (name = "") then mret tt
  else
    enc ← attr encoding;
    open_write name enc display_toPlainText.

Definition close_file : M unit :=
  line_edit_setText [];;
  display_setPlainText [];;
  assign (with_filter_button_disabled true);;
  assign (with_line_edit_disabled true);;
  assign (with_display_disabled true);;
  assign (with_open_file_path_label "").

(** *** Outcomes in closed form *)

(** The two decoding attempts of [open_file] on the content [bs]: the
    detected encoding first, then UTF-8 when the first attempt raised. *)
Definition load_lines (bs : list byte) : Res (list str) :=
  match decode_lines (chardet_detect (readline_bytes 1000 bs)) bs with
  | Ok rows => Ok rows
  | Raise _ => decode_lines (Some "utf-8") bs
  end.

(** The window after [open_file] has loaded the non-empty [rows]. *)
Definition loaded_window (file_path : string) (enc : option string)
    (rows : list str) (longest : str) (m : MainWindow) : MainWindow :=
  with_open_file_path_label (replace_slash file_path)
    (with_width (font_width longest + 50)
      (with_display_disabled false
        (with_line_edit_disabled false
          (with_filter_button_disabled false
            (with_display_text (join rows)
              (with_textfile_data (Some rows)
                (with_encoding enc m))))))).

(** The window after [close_file]. *)
Definition closed_window (m : MainWindow) : MainWindow :=
  with_open_file_path_label ""
    (with_display_disabled true
      (with_line_edit_disabled true
        (with_filter_button_disabled true
          (with_display_text []
            (with_line_edit_text [] m))))).

End Methods.

(** ** Concrete run times, for running the methods on examples *)

Module Platforms.

Definition lower_code_point (c : N) : N :=
  if ((65 <=? c) && (c <=? 90))%N then (c + 32)%N else c.

(** [str.lower] restricted to the letters A-Z; it agrees with Python on the
    ASCII and accented lower-case texts of the examples. *)
Definition ascii_lower (s : str) : str := map lower_code_point s.

Fixpoint bytes_eqb (x y : list byte) : bool :=
  match x, y with
  | [], [] => true
  | a :: x', c :: y' => Byte.eqb a c && bytes_eqb x' y'
  | _, _ => false
  end.

Definition seven_bit (data : list byte) : bool :=
  forallb (fun x => (Byte.to_N x <? 128)%N) data.

(** The sample holds an escape character or the two characters [~{]. *)
Fixpoint has_escape (data : list byte) : bool :=
  match data with
  | [] => false
  | x :: data' =>
    Byte.eqb x x1b
    || (Byte.eqb x x7e
        && match data' with y :: _ => Byte.eqb y x7b | [] => false end)
    || has_escape data'
  end.

(** [chardet.detect]: no data gives no encoding, 7-bit data without escape
    sequences are reported as [ascii]; the answers for other samples are
    taken from [recorded]. *)
Definition detect_with (recorded : list (list byte * option string))
    (data : list byte) : option string :=
  match data with
  | [] => None
  | _ :: _ =>
    if seven_bit data && negb (has_escape data) then Some "ascii"
    else match find (fun p => bytes_eqb (fst p) data) recorded with
         | Some p => snd p
         | None => None
         end
  end.

(** Answers of the detector on the samples used below: Latin-1 text is
    reported as [ISO-8859-1]; a sample with terminal escape sequences and no
    high byte gets no encoding. *)
Definition recorded_answers : list (list byte * option string) :=
  [ (b "abc" ++ [x0d; xe9; x74; xe9; x0d], Some "ISO-8859-1");
    (b "caf" ++ [xe9; x0a], Some "ISO-8859-1");
    ([x1b] ++ b "[1mTitle" ++ [x1b] ++ b "[0m" ++ [x0a], None) ].

Definition platform (preferred : string) (sep : str) : Runtime :=
  {| str_lower := ascii_lower;
     str_lower_empty := eq_refl;
     chardet_detect := detect_with recorded_answers;
     other_codecs := fun _ => None;
     preferred_encoding := preferred;
     linesep := sep;
     font_width := fun s => (10 * Z.of_nat (length s))%Z;
     plain_text := fun s => s |}.

(** A POSIX system with a UTF-8 locale. *)
Definition posix : Runtime := platform "utf-8" [LF].

(** A Windows system with the Western European code page. *)
Definition windows : Runtime := platform "cp1252" [CR; LF].

Definition world (m : MainWindow) (fs : list (string * list byte)) : World :=
  {| win := m; files := list_to_map fs |}.

End Platforms.
Export Platforms.

(** ** Sample files and windows *)

Module Samples.

Definition cities : list byte :=
  b "City,Year,Population" ++ [x0a] ++ b "City1,1800,1000" ++ [x0a]
  ++ b "City1,1900,10000" ++ [x0a] ++ b "City2,1800,2000" ++ [x0a].

(** Two lines terminated by [\n]. *)
Definition unix_text : list byte := b "ab" ++ [x0a] ++ b "cd" ++ [x0a].

(** Two lines terminated by [\r\n]. *)
Definition dos_text : list byte :=
  b "ab" ++ [x0d; x0a] ++ b "cd" ++ [x0d; x0a].

(** Lines terminated by [\r\n], [\r] and [\n], and a last line without
    terminator. *)
Definition mixed_text : list byte :=
  b "ab" ++ [x0d; x0a] ++ b "cd" ++ [x0d] ++ b "ef" ++ [x0a] ++ b "gh".

(** One line of Latin-1 text, [caf\xe9]. *)
Definition latin1_text : list byte := b "caf" ++ [xe9; x0a].

(** An ASCII line followed by a byte that no encoding tried accepts. *)
Definition broken_text : list byte := b "abc" ++ [x0a; xff; x0a].

(** A log whose first line holds terminal escape sequences, followed by a
    line of UTF-8 text, [caf\xc3\xa9]. *)
Definition coloured_log : list byte :=
  [x1b] ++ b "[1mTitle" ++ [x1b] ++ b "[0m" ++ [x0a]
  ++ b "caf" ++ [xc3; xa9; x0a].

(** Latin-1 text whose lines end with [\r]: an ASCII line, then
    [\xe9t\xe9]. *)
Definition mac_latin1_text : list byte :=
  b "abc" ++ [x0d; xe9; x74; xe9; x0d].

Definition disk : list (string * list byte) :=
  [ ("cities.csv", cities); ("unix.txt", unix_text); ("dos.txt", dos_text);
    ("mixed.txt", mixed_text); ("cafe.txt", latin1_text);
    ("bad.txt", broken_text); ("log.txt", coloured_log);
    ("mac.txt", mac_latin1_text); ("empty.txt", []) ].

(** A fresh window in front of the sample files. *)
Definition fresh : World := world init disk.

(** The world after the method [m] has run from [w]. *)
Definition after {A} (m : M A) (w : World) : World := snd (m w).

(** The outcome of the method [m] run from [w]. *)
Definition outcome {A} (m : M A) (w : World) : Res A := fst (m w).

End Samples.


(** ** The events of a session *)

Module Session.

Definition with_live_filtering (v : bool) (m : MainWindow) : MainWindow :=
  {| encoding := encoding m; textfile_data := textfile_data m;
     line_edit_text := line_edit_text m;
     line_edit_disabled := line_edit_disabled m;
     filter_button_disabled := filter_button_disabled m;
     display_text := display_text m; display_disabled := display_disabled m;
     open_file_path_label := open_file_path_label m;
     live_filtering := v; width := width m |}.

(** What the user, or another program, can do to a running application. *)
Inductive Event :=
  | OpenFile (file_path : string)   (* File > Open and the answer of the dialog *)
  | SaveFile (name : string)        (* File > Save as and the answer of the dialog *)
  | CloseFile                       (* File > Close *)
  | EditText (s : str)              (* the text of the line edit becomes [s] *)
  | ClickFilter                     (* the Filter button, or the Enter key *)
  | ClickLive                       (* the check box "Do live filtering" *)
  | External (fs : gmap string (list byte)). (* the files change on disk *)

(** The window keeps the rows of a document as [readlines] cuts them, and
    its three tools are enabled or disabled together; an enabled filter
    button has rows to filter. *)
Definition window_ok (m : MainWindow) : Prop :=
  (filter_button_disabled m = false -> exists rows, textfile_data m = Some rows)
  /\ line_edit_disabled m = filter_button_disabled m
  /\ display_disabled m = filter_button_disabled m
  /\ (forall rows, textfile_data m = Some rows ->
        Forall line_shaped rows /\ (CR ∉ join rows)).

Section Events.

Context {R : Runtime}.

(** [handle_filtering_mode], for the state [checked] of the check box.  The
    window records whether [textChanged] is connected to the button, not how
    many times; disconnecting what is not connected raises [TypeError]. *)
Definition handle_filtering_mode (checked : bool) : M unit :=
  if checked then
    assign (with_live_filtering true);;
    filter_button_click
  else
    live ← attr live_filtering;
    if live : bool then assign (with_live_filtering false)
    else raise TypeError.

(** A click on the check box: the box changes state and emits [clicked],
    which is connected to [handle_filtering_mode].  The box is checked
    exactly when [textChanged] is connected: [__init__] checks the box and
    connects, and every click changes both. *)
Definition do_live_search_checkbox_click : M unit :=
  live ← attr live_filtering;
  handle_filtering_mode (negb live).

Definition handle (e : Event) : M unit :=
  match e with
  | OpenFile file_path => open_file file_path
  | SaveFile name => save_file name
  | CloseFile => close_file
  | EditText s => line_edit_setText s
  | ClickFilter => filter_button_click
  | ClickLive => do_live_search_checkbox_click
  | External fs => fun w => (Ok tt, {| win := win w; files := fs |})
  end.

(** The world after an event; after an exception the application goes on
    from the world as the method left it. *)
Definition step (w : World) (e : Event) : World := snd (handle e w).

Definition run (es : list Event) (w : World) : World := fold_left step es w.

(** The application just started, in front of the files [fs]. *)
Definition started (fs : gmap string (list byte)) : World :=
  {| win := init; files := fs |}.

End Events.

End Session.
Export Session.

(** * Properties *)

(** ** Substring search *)

Section TextFacts.

Lemma startswith_spec (prefix s : str) :
  startswith prefix s = true <-> exists post, s = prefix ++ post.
Proof.
  revert s. induction prefix as [|p prefix IH]; intros s; simpl.
  - split; [intros _; exists s; reflexivity | reflexivity].
  - destruct s as [|c s].
    + split; [discriminate | intros [post H]; discriminate].
    + rewrite andb_true_iff, N.eqb_eq, IH. split.
      * intros [-> [post ->]]. exists post. reflexivity.
      * intros [post H]. injection H as -> ->. split; [reflexivity | eauto].
Qed.

Lemma contains_spec (needle hay : str) :
  contains needle hay = true <-> is_substring needle hay.
Proof.
  unfold is_substring. induction hay as [|c hay IH]; simpl.
  - rewrite orb_false_r, startswith_spec. split.
    + intros [post H]. exists [], post. exact H.
    + intros [pre [post H]]. destruct pre; [eauto | discriminate].
  - rewrite orb_true_iff, startswith_spec, IH. split.
    + intros [[post H] | [pre [post H]]].
      * exists [], post. exact H.
      * exists (c :: pre), post. rewrite H. reflexivity.
    + intros [pre [post H]]. destruct pre as [|c' pre].
      * left. exists post. exact H.
      * right. injection H as _ H. eauto.
Qed.

Lemma contains_empty (hay : str) : contains [] hay = true.
Proof. destruct hay; reflexivity. Qed.

(** ** Lines *)

Lemma join_readlines (s : str) : join (readlines s) = s.
Proof.
  unfold join. induction s as [|c s IH]; simpl; [reflexivity|].
  destruct (c =? LF)%N.
  - simpl. rewrite IH. reflexivity.
  - destruct (readlines s) as [|l ls]; simpl in *; rewrite <- IH; reflexivity.
Qed.

Lemma readlines_nil (s : str) : readlines s = [] <-> s = [].
Proof.
  split; [|intros ->; reflexivity].
  destruct s as [|c s]; [reflexivity|]. simpl.
  destruct (c =? LF)%N; [discriminate|].
  destruct (readlines s); discriminate.
Qed.

Lemma readlines_shaped (s : str) : Forall line_shaped (readlines s).
Proof.
  induction s as [|c s IH]; simpl; [constructor|].
  destruct (c =? LF)%N eqn:E.
  - constructor; [|exact IH]. split; [discriminate|].
    intros [|p pre] post H; simpl in H.
    + injection H as _ H. symmetry. exact H.
    + injection H as _ H. destruct pre; discriminate.
  - apply N.eqb_neq in E.
    destruct (readlines s) as [|l ls].
    + repeat constructor; [discriminate|].
      intros [|p pre] post H; simpl in H.
      * injection H as H _. contradiction.
      * injection H as _ H. destruct pre; discriminate.
    + inversion IH as [|? ? [Hne Hl] Hls]; subst.
      constructor; [|exact Hls]. split; [discriminate|].
      intros [|p pre] post H; simpl in H.
      * injection H as H _. contradiction.
      * injection H as _ H. eapply Hl, H.
Qed.

(** Every line but the last one ends with [\n]. *)
Lemma readlines_terminated (s : str) (i : nat) (l : str) :
  readlines s !! i = Some l -> is_Some (readlines s !! S i) ->
  last l = Some LF.
Proof.
  revert i l. induction s as [|c s IH]; intros i l; simpl; [discriminate|].
  destruct (c =? LF)%N eqn:E.
  - apply N.eqb_eq in E. subst c.
    destruct i as [|i]; simpl.
    + intros [= <-] _. reflexivity.
    + apply IH.
  - destruct (readlines s) as [|l0 ls] eqn:Hr.
    + destruct i; simpl; [intros _ [? H]; discriminate | discriminate].
    + destruct i as [|i]; simpl.
      * intros [= <-] Hnext.
        assert (Hl0 : last l0 = Some LF) by (apply (IH 0%nat); [reflexivity | exact Hnext]).
        destruct l0; [discriminate|]. exact Hl0.
      * intros Hi Hnext. apply (IH (S i)); assumption.
Qed.

(** ** Newline translation *)

Lemma universal_newlines_no_CR (s : str) : CR ∉ universal_newlines s.
Proof.
  assert (H : forall n (t : str), (length t <= n)%nat -> CR ∉ universal_newlines t).
  { induction n as [|n IH]; intros t Hn.
    - destruct t; [|simpl in Hn; lia]. simpl. apply not_elem_of_nil.
    - destruct t as [|c t]; simpl; [apply not_elem_of_nil|].
      simpl in Hn. destruct (c =? CR)%N eqn:E.
      + destruct t as [|c' t].
        * intros H. apply list_elem_of_singleton in H. discriminate.
        * simpl in Hn. destruct (c' =? LF)%N.
          -- apply not_elem_of_cons. split; [discriminate|]. apply IH. lia.
          -- apply not_elem_of_cons. split; [discriminate|]. apply IH. simpl. lia.
      + apply N.eqb_neq in E. apply not_elem_of_cons. split; [congruence|].
        apply IH. lia. }
  apply (H (length s)). lia.
Qed.

Lemma universal_newlines_id (s : str) : CR ∉ s -> universal_newlines s = s.
Proof.
  induction s as [|c s IH]; intros H; simpl; [reflexivity|].
  apply not_elem_of_cons in H as [Hc Hs].
  destruct (c =? CR)%N eqn:E.
  - apply N.eqb_eq in E. congruence.
  - rewrite IH by exact Hs. reflexivity.
Qed.

Lemma translate_newlines_out_LF (s : str) : translate_newlines_out [LF] s = s.
Proof.
  unfold translate_newlines_out. induction s as [|c s IH]; simpl; [reflexivity|].
  rewrite IH. destruct (c =? LF)%N eqn:E; [|reflexivity].
  apply N.eqb_eq in E. subst c. reflexivity.
Qed.

Lemma translate_newlines_out_CR_head (s : str) :
  match translate_newlines_out [CR] s with
  | c :: _ => c <> LF
  | [] => True
  end.
Proof.
  destruct s as [|c s]; simpl; [exact I|].
  destruct (c =? LF)%N eqn:E; simpl; [discriminate|].
  apply N.eqb_neq in E. exact E.
Qed.

(** Reading back what was written gives the text that was written, whatever
    the line separator of the platform, when the text holds no [\r]. *)
Lemma universal_newlines_translate_out (sep s : str) :
  is_linesep sep -> CR ∉ s ->
  universal_newlines (translate_newlines_out sep s) = s.
Proof.
  intros Hsep. induction s as [|c s IH]; intros H; [reflexivity|].
  apply not_elem_of_cons in H as [Hc Hs]. specialize (IH Hs).
  change (translate_newlines_out sep (c :: s))
    with ((if (c =? LF)%N then sep else [c]) ++ translate_newlines_out sep s).
  destruct (c =? LF)%N eqn:E.
  - apply N.eqb_eq in E. subst c.
    destruct Hsep as [-> | [-> | ->]]; simpl.
    + rewrite IH. reflexivity.
    + rewrite IH. reflexivity.
    + pose proof (translate_newlines_out_CR_head s) as Hh.
      destruct (translate_newlines_out [CR] s) as [|c' t] eqn:Ht.
      * simpl in IH. rewrite <- IH. reflexivity.
      * apply N.eqb_neq in Hh. rewrite Hh, IH. reflexivity.
  - simpl. destruct (c =? CR)%N eqn:E'.
    + apply N.eqb_eq in E'. congruence.
    + rewrite IH. reflexivity.
Qed.

Lemma max_by_len_None (rows : list str) : max_by_len rows = None <-> rows = [].
Proof.
  split; [|intros ->; reflexivity].
  destruct rows as [|r rows]; [reflexivity|]. simpl.
  destruct (max_by_len rows); [destruct (_ <? _)%nat|]; discriminate.
Qed.

End TextFacts.

(** ** Codecs *)

Section CodecFacts.

Lemma bytes_of_Some (ns : list N) (bs : list byte) :
  bytes_of ns = Some bs -> map Byte.to_N bs = ns.
Proof.
  unfold bytes_of. rewrite mapM_Some. induction 1 as [|n x ns bs Hx _ IH]; simpl.
  - reflexivity.
  - rewrite IH, (Byte.to_of_N n Hx). reflexivity.
Qed.

Lemma mapM_singletons (p : N -> bool) (t : str) (ns : list (list N)) :
  mapM (fun c => if p c then Some [c] else None) t = Some ns ->
  concat ns = t /\ Forall (fun c => p c = true) t.
Proof.
  rewrite mapM_Some. induction 1 as [|c y t ns Hc _ [IH1 IH2]]; simpl.
  - split; [reflexivity | constructor].
  - destruct (p c) eqn:E; [|discriminate]. injection Hc as <-.
    simpl. rewrite IH1. split; [reflexivity|]. constructor; assumption.
Qed.

(** What the ASCII codec wrote, it reads back. *)
Lemma ascii_codec_roundtrip (t : str) (bs : list byte) :
  encode ascii_codec t = Some bs -> decode ascii_codec bs = Some t.
Proof.
  simpl. unfold ascii_encode, encode_with, ascii_decode. intros H.
  destruct (mapM _ t) as [ns|] eqn:E; [|discriminate]. simpl in H.
  apply mapM_singletons in E as [Hcat Hall]. rewrite Hcat in H.
  apply bytes_of_Some in H. rewrite <- H in Hall |- *. clear H Hcat.
  apply mapM_Some. induction bs as [|x bs IH]; simpl; [constructor|].
  inversion Hall as [|? ? Hx Hbs]; subst.
  constructor; [|apply IH, Hbs]. simpl. rewrite Hx. reflexivity.
Qed.

(** What the Latin-1 codec wrote, it reads back. *)
Lemma latin1_codec_roundtrip (t : str) (bs : list byte) :
  encode latin1_codec t = Some bs -> decode latin1_codec bs = Some t.
Proof.
  simpl. unfold latin1_encode, encode_with, latin1_decode. intros H.
  destruct (mapM _ t) as [ns|] eqn:E; [|discriminate]. simpl in H.
  apply mapM_singletons in E as [Hcat _]. rewrite Hcat in H.
  apply bytes_of_Some in H. rewrite H. reflexivity.
Qed.

End CodecFacts.

(** ** Filtering *)

Section Filtering.

Context {R : Runtime}.

Lemma filter_all_true {A} (f : A -> bool) (l : list A) :
  (forall x, f x = true) -> List.filter f l = l.
Proof.
  intros H. induction l as [|x l IH]; simpl; [reflexivity|].
  rewrite H, IH. reflexivity.
Qed.

Lemma filter_idempotent {A} (f : A -> bool) (l : list A) :
  List.filter f (List.filter f l) = List.filter f l.
Proof.
  induction l as [|x l IH]; simpl; [reflexivity|].
  destruct (f x) eqn:E; simpl; [rewrite E, IH; reflexivity | exact IH].
Qed.

Lemma filter_sublist {A} (f : A -> bool) (l : list A) :
  sublist (List.filter f l) l.
Proof.
  induction l as [|x l IH]; simpl; [constructor|].
  destruct (f x); constructor; exact IH.
Qed.

Lemma filter_count_occ {A} (dec : forall x y : A, {x = y} + {x <> y})
    (f : A -> bool) (l : list A) (x : A) :
  count_occ dec (List.filter f l) x = if f x then count_occ dec l x else 0%nat.
Proof.
  induction l as [|y l IH]; simpl; [destruct (f x); reflexivity|].
  destruct (f y) eqn:Ey; simpl; destruct (dec y x) as [->|Hne]; rewrite IH.
  - rewrite Ey. reflexivity.
  - reflexivity.
  - rewrite Ey. reflexivity.
  - reflexivity.
Qed.

(** The two branches of [filter_display] are one comprehension: the empty
    string occurs in every row. *)
Lemma filter_rows_comprehension (q : str) (data : list str) :
  filter_rows q data
  = List.filter (fun i => contains (str_lower q) (str_lower i)) data.
Proof.
  destruct q as [|c q]; [|reflexivity]. simpl.
  rewrite filter_all_true; [reflexivity|].
  intros x. rewrite str_lower_empty. apply contains_empty.
Qed.

Lemma filter_display_run (m : MainWindow) (fs : gmap string (list byte))
    (data : list str) :
  textfile_data m = Some data ->
  filter_display {| win := m; files := fs |}
  = (Ok tt, {| win := with_display_text
                        (join (filter_rows (line_edit_text m) data)) m;
               files := fs |}).
Proof.
  intros H. unfold filter_display, self_textfile_data, display_setPlainText.
  unfold mbind, M_bind, bind, attr, assign. simpl. rewrite H. reflexivity.
Qed.

(** C1. For every document and query, [filter_display] shows exactly the
    rows whose lower-case form contains the lower-case query as a substring:
    the rows shown are a subsequence of the rows of the document in their
    original order, a row is shown exactly when it is a matching row of the
    document, and a matching row is shown as many times as the document has
    it, while a row that does not match is not shown at all. *)
Theorem filter_display_exact (q : str) (data : list str) (m : MainWindow)
    (fs : gmap string (list byte)) :
  let m0 := with_textfile_data (Some data) (with_line_edit_text q m) in
  let shown := filter_rows q data in
  filter_display {| win := m0; files := fs |}
  = (Ok tt, {| win := with_display_text (join shown) m0; files := fs |})
  /\ sublist shown data
  /\ (forall l, l ∈ shown <->
                l ∈ data /\ is_substring (str_lower q) (str_lower l))
  /\ (forall l, is_substring (str_lower q) (str_lower l) ->
                count_occ str_eq_dec shown l
                = count_occ str_eq_dec data l)
  /\ (forall l, ~ is_substring (str_lower q) (str_lower l) ->
                count_occ str_eq_dec shown l = 0%nat).
Proof.
  intros m0 shown. subst shown. split; [|split; [|split; [|split]]].
  - apply (filter_display_run m0). reflexivity.
  - rewrite filter_rows_comprehension. apply filter_sublist.
  - intros l. rewrite filter_rows_comprehension.
    rewrite !list_elem_of_In, filter_In, contains_spec. reflexivity.
  - intros l Hl. rewrite filter_rows_comprehension, filter_count_occ.
    apply contains_spec in Hl. rewrite Hl. reflexivity.
  - intros l Hl. rewrite filter_rows_comprehension, filter_count_occ.
    destruct (contains _ _) eqn:E; [|reflexivity].
    apply contains_spec in E. contradiction.
Qed.

(** C2. With the empty query the filter is the identity: the rows shown are
    the rows of the document, with the same content and in the same order,
    and the display holds their concatenation. *)
Theorem filter_display_empty_query (data : list str) (m : MainWindow)
    (fs : gmap string (list byte)) :
  let m0 := with_textfile_data (Some data) (with_line_edit_text [] m) in
  filter_rows [] data = data
  /\ filter_display {| win := m0; files := fs |}
     = (Ok tt, {| win := with_display_text (join data) m0; files := fs |}).
Proof.
  intros m0. split; [reflexivity|].
  apply (filter_display_run m0). reflexivity.
Qed.

(** C10. Filtering is idempotent: filtering the rows that a query selected
    with the same query selects all of them again, for every query (the
    non-empty ones in particular), and so a window whose document is the
    filtered rows displays the same text. *)
Theorem filter_display_idempotent (q : str) (data : list str)
    (m : MainWindow) (fs : gmap string (list byte)) :
  let once := filter_rows q data in
  let m1 := with_textfile_data (Some data) (with_line_edit_text q m) in
  let m2 := with_textfile_data (Some once) (with_line_edit_text q m) in
  filter_rows q once = once
  /\ display_text (win (snd (filter_display {| win := m2; files := fs |})))
     = display_text (win (snd (filter_display {| win := m1; files := fs |}))).
Proof.
  intros once m1 m2. subst once.
  assert (H : filter_rows q (filter_rows q data) = filter_rows q data).
  { rewrite !filter_rows_comprehension. apply filter_idempotent. }
  split; [exact H|].
  rewrite (filter_display_run m2 fs (filter_rows q data) eq_refl).
  rewrite (filter_display_run m1 fs data eq_refl).
  simpl. rewrite H. reflexivity.
Qed.

End Filtering.

(** ** Loading *)

Section Loading.

Context {R : Runtime}.

(** [open_file] in closed form, on a file that exists. *)
Lemma open_file_run (file_path : string) (w : World) (bs : list byte) :
  file_path <> "" -> files w !! file_path = Some bs ->
  let enc := chardet_detect (readline_bytes 1000 bs) in
  open_file file_path w
  = match load_lines bs with
    | Raise e =>
      (Raise e, {| win := with_encoding enc (win w); files := files w |})
    | Ok rows =>
      match max_by_len rows with
      | None =>
        (Raise ValueError,
         {| win := with_textfile_data (Some rows) (with_encoding enc (win w));
            files := files w |})
      | Some longest =>
        (Ok tt,
         {| win := loaded_window file_path enc rows longest (win w);
            files := files w |})
      end
    end.
Proof.
  intros Hp Hf enc. unfold open_file.
  rewrite bool_decide_eq_false_2 by exact Hp.
  unfold _detect_encoding, open_readlines, read_bytes, self_textfile_data,
    display_setPlainText, load_lines.
  unfold mbind, M_bind, bind, mret, M_ret, ret, try_except, attr, assign, lift.
  cbn [files win]. rewrite Hf. cbn [or_raise ret raise files win].
  rewrite Hf. cbn [or_raise ret raise files win]. fold enc.
  destruct (decode_lines enc bs) as [rows|e];
    cbn [win files textfile_data with_textfile_data or_raise ret raise];
    rewrite ?Hf;
    cbn [win files textfile_data with_textfile_data or_raise ret raise].
  - destruct rows as [|r rows].
    + reflexivity.
    + destruct (max_by_len (r :: rows)) eqn:E; [reflexivity|].
      apply max_by_len_None in E. discriminate.
  - destruct (decode_lines (Some "utf-8") bs) as [rows|e'];
      cbn [win files textfile_data with_textfile_data or_raise ret raise];
      [|reflexivity].
    destruct rows as [|r rows].
    + reflexivity.
    + destruct (max_by_len (r :: rows)) eqn:E; [reflexivity|].
      apply max_by_len_None in E. discriminate.
Qed.

Lemma lookup_codec_utf8 : lookup_codec "utf-8" = Some utf8_codec.
Proof. reflexivity. Qed.

Lemma decode_lines_Ok (enc : option string) (bs : list byte) (rows : list str) :
  decode_lines enc bs = Ok rows ->
  exists c text,
    lookup_codec (resolve_encoding enc) = Some c /\ decode c bs = Some text
    /\ rows = readlines (universal_newlines text).
Proof.
  unfold decode_lines.
  destruct (lookup_codec (resolve_encoding enc)) as [c|]; [|discriminate].
  destruct (decode c bs) as [text|] eqn:E; [|discriminate].
  intros [= <-]. eauto.
Qed.

(** A load that returns has read a document that is not empty, and has gone
    through the branch of [open_file] for a file that is not empty. *)
Lemma open_file_Ok (file_path : string) (w w' : World) (bs : list byte) :
  file_path <> "" -> files w !! file_path = Some bs ->
  open_file file_path w = (Ok tt, w') ->
  exists rows longest,
    load_lines bs = Ok rows /\ max_by_len rows = Some longest
    /\ w' = {| win := loaded_window file_path
                        (chardet_detect (readline_bytes 1000 bs))
                        rows longest (win w);
               files := files w |}.
Proof.
  intros Hp Hf. rewrite (open_file_run file_path w bs Hp Hf).
  destruct (load_lines bs) as [rows|e]; [|discriminate].
  destruct (max_by_len rows) as [longest|] eqn:Hmax; [|discriminate].
  intros [= <-]. exists rows, longest. auto.
Qed.

End Loading.

(** ** Saving and closing *)

Section SavingClosing.

Context {R : Runtime}.

(** [save_file] in closed form. *)
Lemma save_file_run (name : string) (w : World) :
  name <> "" ->
  save_file name w
  = match lookup_codec (resolve_encoding (encoding (win w))) with
    | None =>
      (Raise LookupError, {| win := win w; files := <[name := []]> (files w) |})
    | Some c =>
      match encode c (translate_newlines_out linesep
                        (plain_text (display_text (win w)))) with
      | None =>
        (Raise UnicodeEncodeError,
         {| win := win w; files := <[name := []]> (files w) |})
      | Some bs =>
        (Ok tt, {| win := win w; files := <[name := bs]> (files w) |})
      end
    end.
Proof.
  intros Hn. unfold save_file. rewrite bool_decide_eq_false_2 by exact Hn.
  unfold open_write, write_bytes, display_toPlainText.
  unfold mbind, M_bind, bind, mret, M_ret, ret, attr.
  cbn [win files].
  destruct (lookup_codec (resolve_encoding (encoding (win w)))) as [c|];
    cbn [or_raise ret raise win files]; [|reflexivity].
  destruct (encode c _) as [bs|]; cbn [or_raise ret raise win files];
    [|reflexivity].
  rewrite insert_insert_eq. reflexivity.
Qed.

(** [close_file] in closed form, for a window that holds a document. *)
Lemma close_file_run (w : World) (data : list str) :
  textfile_data (win w) = Some data ->
  close_file w = (Ok tt, {| win := closed_window (win w); files := files w |}).
Proof.
  intros Hd. unfold close_file, line_edit_setText, filter_button_click,
    filter_display, self_textfile_data, display_setPlainText.
  unfold mbind, M_bind, bind, mret, M_ret, ret, attr, assign.
  cbn [win files live_filtering with_line_edit_text].
  destruct (bool_decide _); [reflexivity|].
  destruct (live_filtering (win w)); [|reflexivity].
  cbn [win files filter_button_disabled with_line_edit_text].
  destruct (filter_button_disabled (win w)); [reflexivity|].
  cbn [win files textfile_data with_line_edit_text]. rewrite Hd.
  reflexivity.
Qed.

End SavingClosing.

(** ** The claims on loading, saving and closing *)

Section Claims.

Import Samples.

(** The scenario of the design document: the query [City1] on the sample
    file shows the two rows of that city. *)
Example filter_display_City1 :
  let w := after (open_file (R:=posix) "cities.csv") fresh in
  let w' := after (line_edit_setText (R:=posix) (u "City1")) w in
  display_text (win w')
  = u "City1,1800,1000" ++ [LF] ++ u "City1,1900,10000" ++ [LF].
Proof. vm_compute. reflexivity. Qed.

(** The run of the test suite: the sample is loaded, filtered with [City1]
    and saved; the copy holds the two rows shown, and loading it gives these
    two rows. *)
Example save_file_City1 :
  let w := after (save_file (R:=posix) "subset.csv")
             (after (line_edit_setText (R:=posix) (u "City1"))
                (after (open_file (R:=posix) "cities.csv") fresh)) in
  files w !! "subset.csv"
  = Some (b "City1,1800,1000" ++ [x0a] ++ b "City1,1900,10000" ++ [x0a])
  /\ textfile_data (win (after (open_file (R:=posix) "subset.csv") w))
     = Some [u "City1,1800,1000" ++ [LF]; u "City1,1900,10000" ++ [LF]].
Proof. vm_compute. split; reflexivity. Qed.

(** C3, as stated, fails: after [close_file] on a window that holds a
    document, the encoding is still the one of the document and the rows are
    still in [textfile_data]. *)
Lemma close_file_keeps_document :
  outcome (close_file (R:=posix)) (after (open_file (R:=posix) "unix.txt") fresh)
  = Ok tt
  /\ encoding
       (win (after (close_file (R:=posix))
               (after (open_file (R:=posix) "unix.txt") fresh)))
     = Some "ascii"
  /\ textfile_data
       (win (after (close_file (R:=posix))
               (after (open_file (R:=posix) "unix.txt") fresh)))
     = Some [u "ab" ++ [LF]; u "cd" ++ [LF]]
  /\ ~ (encoding
          (win (after (close_file (R:=posix))
                  (after (open_file (R:=posix) "unix.txt") fresh)))
        = None).
Proof. vm_compute. repeat split. discriminate. Qed.

(** C3, amended. After [close_file] on a window that holds a document, the
    display and the filter text are empty, the filter button, the line edit
    and the display are disabled and the path label is empty; the rows and
    the encoding of the document are kept as they were, and no file is read
    or written. *)
Theorem close_file_clears_view {R : Runtime} (w : World) (data : list str) :
  textfile_data (win w) = Some data ->
  close_file w = (Ok tt, {| win := closed_window (win w); files := files w |})
  /\ display_text (closed_window (win w)) = []
  /\ line_edit_text (closed_window (win w)) = []
  /\ filter_button_disabled (closed_window (win w)) = true
  /\ line_edit_disabled (closed_window (win w)) = true
  /\ display_disabled (closed_window (win w)) = true
  /\ open_file_path_label (closed_window (win w)) = ""
  /\ textfile_data (closed_window (win w)) = Some data
  /\ encoding (closed_window (win w)) = encoding (win w).
Proof.
  intros Hd. split; [exact (close_file_run w data Hd)|].
  repeat split. exact Hd.
Qed.

Lemma close_file_clears_view_witness :
  textfile_data (win (after (open_file (R:=posix) "unix.txt") fresh))
  = Some [u "ab" ++ [LF]; u "cd" ++ [LF]]
  /\ close_file (R:=posix) (after (open_file (R:=posix) "unix.txt") fresh)
     = (Ok tt,
        {| win := closed_window
                    (win (after (open_file (R:=posix) "unix.txt") fresh));
           files := files (after (open_file (R:=posix) "unix.txt") fresh) |}).
Proof.
  split; [vm_compute; reflexivity|].
  apply (@close_file_clears_view posix
           (after (open_file (R:=posix) "unix.txt") fresh)
           [u "ab" ++ [LF]; u "cd" ++ [LF]]).
  vm_compute. reflexivity.
Defined.

(** C4, as stated, fails: a file whose lines end with [\r\n] is loaded as
    rows that end with [\n]; the rows are not the pieces of the decoded
    content. *)
Lemma open_file_translates_terminators :
  outcome (open_file (R:=posix) "dos.txt") fresh = Ok tt
  /\ decode ascii_codec dos_text
     = Some (u "ab" ++ [CR; LF] ++ u "cd" ++ [CR; LF])
  /\ textfile_data (win (after (open_file (R:=posix) "dos.txt") fresh))
     = Some [u "ab" ++ [LF]; u "cd" ++ [LF]]
  /\ textfile_data (win (after (open_file (R:=posix) "dos.txt") fresh))
     <> Some [u "ab" ++ [CR; LF]; u "cd" ++ [CR; LF]].
Proof. vm_compute. repeat split. discriminate. Qed.

(** C4, amended. For every file successfully loaded, the rows of the
    document are the decoded content of the file (decoded with the detected
    encoding or, failing that, with UTF-8) in which every line terminator
    [\r\n] or [\r] has been replaced by [\n], cut after each [\n]: the rows
    joined give that text back in the original order, no row holds a [\r],
    no row is empty, a [\n] can only be the last character of a row and
    every row but the last ends with one.  Where the content holds no [\r],
    the rows joined are the decoded content itself. *)
Theorem open_file_lines {R : Runtime} (file_path : string) (w w' : World)
    (bs : list byte) :
  file_path <> "" -> files w !! file_path = Some bs ->
  open_file file_path w = (Ok tt, w') ->
  exists c text rows,
    (lookup_codec (resolve_encoding (chardet_detect (readline_bytes 1000 bs)))
     = Some c \/ c = utf8_codec)
    /\ decode c bs = Some text
    /\ textfile_data (win w') = Some rows
    /\ rows = readlines (universal_newlines text)
    /\ join rows = universal_newlines text
    /\ ((CR ∉ text) -> join rows = text)
    /\ (CR ∉ join rows)
    /\ Forall line_shaped rows
    /\ (forall i l, rows !! i = Some l -> is_Some (rows !! S i) ->
                    last l = Some LF).
Proof.
  intros Hp Hf Hrun.
  destruct (open_file_Ok file_path w w' bs Hp Hf Hrun)
    as (rows & longest & Hload & _ & ->).
  assert (Hc : exists c text,
             (lookup_codec (resolve_encoding
                (chardet_detect (readline_bytes 1000 bs))) = Some c
              \/ c = utf8_codec)
             /\ decode c bs = Some text
             /\ rows = readlines (universal_newlines text)).
  { unfold load_lines in Hload.
    destruct (decode_lines (chardet_detect (readline_bytes 1000 bs)) bs)
      as [rows0|e] eqn:E.
    - injection Hload as ->.
      apply decode_lines_Ok in E as (c & text & Hc & Hd & Hr). eauto 6.
    - apply decode_lines_Ok in Hload as (c & text & Hc & Hd & Hr).
      change (resolve_encoding (Some "utf-8")) with "utf-8" in Hc.
      rewrite lookup_codec_utf8 in Hc. injection Hc as <-. eauto 6. }
  destruct Hc as (c & text & Hc & Hd & ->).
  exists c, text, (readlines (universal_newlines text)).
  rewrite join_readlines.
  split; [exact Hc|]. split; [exact Hd|]. split; [reflexivity|].
  split; [reflexivity|]. split; [reflexivity|].
  split; [intros H; apply universal_newlines_id, H|].
  split; [apply universal_newlines_no_CR|].
  split; [apply readlines_shaped|].
  intros i l. apply readlines_terminated.
Qed.

Lemma open_file_lines_witness :
  exists c text rows,
    (lookup_codec (R:=posix)
       (resolve_encoding (R:=posix)
          (@chardet_detect posix (readline_bytes 1000 mixed_text)))
     = Some c \/ c = utf8_codec)
    /\ decode c mixed_text = Some text
    /\ textfile_data (win (after (open_file (R:=posix) "mixed.txt") fresh))
       = Some rows
    /\ rows = readlines (universal_newlines text)
    /\ join rows = universal_newlines text
    /\ ((CR ∉ text) -> join rows = text)
    /\ (CR ∉ join rows)
    /\ Forall line_shaped rows
    /\ (forall i l, rows !! i = Some l -> is_Some (rows !! S i) ->
                    last l = Some LF).
Proof.
  apply (@open_file_lines posix "mixed.txt" fresh
           (after (open_file (R:=posix) "mixed.txt") fresh) mixed_text).
  - discriminate.
  - vm_compute. reflexivity.
  - vm_compute. reflexivity.
Defined.

(** The rows of the sample with mixed terminators. *)
Example open_file_mixed :
  textfile_data (win (after (open_file (R:=posix) "mixed.txt") fresh))
  = Some [u "ab" ++ [LF]; u "cd" ++ [LF]; u "ef" ++ [LF]; u "gh"].
Proof. vm_compute. reflexivity. Qed.

Lemma translate_newlines_out_no_LF (sep s : str) :
  LF ∉ s -> translate_newlines_out sep s = s.
Proof.
  unfold translate_newlines_out.
  induction s as [|c s IH]; intros H; simpl; [reflexivity|].
  apply not_elem_of_cons in H as [Hc Hs]. rewrite (IH Hs).
  destruct (c =? LF)%N eqn:E; [|reflexivity].
  apply N.eqb_eq in E. congruence.
Qed.

(** C5, as stated, fails: on a platform whose line separator is [\r\n], the
    [\n] that ends each row of the display is written as [\r\n]; the file
    is not the encoding of the rows as they are. *)
Lemma save_file_translates_newlines :
  display_text (win (after (open_file (R:=windows) "unix.txt") fresh))
  = u "ab" ++ [LF] ++ u "cd" ++ [LF]
  /\ encoding (win (after (open_file (R:=windows) "unix.txt") fresh))
     = Some "ascii"
  /\ outcome (save_file (R:=windows) "out.txt")
       (after (open_file (R:=windows) "unix.txt") fresh) = Ok tt
  /\ files (after (save_file (R:=windows) "out.txt")
              (after (open_file (R:=windows) "unix.txt") fresh)) !! "out.txt"
     = Some (b "ab" ++ [x0d; x0a] ++ b "cd" ++ [x0d; x0a])
  /\ encode ascii_codec (u "ab" ++ [LF] ++ u "cd" ++ [LF])
     = Some (b "ab" ++ [x0a] ++ b "cd" ++ [x0a])
  /\ files (after (save_file (R:=windows) "out.txt")
              (after (open_file (R:=windows) "unix.txt") fresh)) !! "out.txt"
     <> Some (b "ab" ++ [x0a] ++ b "cd" ++ [x0a]).
Proof. vm_compute. repeat split. discriminate. Qed.

(** C5, amended. [save_file] writes to the chosen path, with the codec of
    the window's encoding, the text of the display in which every [\n] is
    replaced by the line separator of the platform and every other
    character is left as it is.  The text is written verbatim when the line
    separator of the platform is [\n], and when the text holds no [\n]. *)
Theorem save_file_writes {R : Runtime} (name : string) (w : World)
    (c : Codec) (bs : list byte) :
  name <> "" ->
  lookup_codec (resolve_encoding (encoding (win w))) = Some c ->
  encode c (translate_newlines_out linesep
              (plain_text (display_text (win w)))) = Some bs ->
  save_file name w
  = (Ok tt, {| win := win w; files := <[name := bs]> (files w) |})
  /\ (linesep = [LF] ->
      encode c (plain_text (display_text (win w))) = Some bs)
  /\ ((LF ∉ plain_text (display_text (win w))) ->
      encode c (plain_text (display_text (win w))) = Some bs).
Proof.
  intros Hn Hc He. split; [|split].
  - rewrite (save_file_run name w Hn), Hc, He. reflexivity.
  - intros Hsep. rewrite Hsep, translate_newlines_out_LF in He. exact He.
  - intros Hno. rewrite (translate_newlines_out_no_LF _ _ Hno) in He. exact He.
Qed.

Lemma save_file_writes_witness :
  save_file (R:=windows) "out.txt"
    (after (open_file (R:=windows) "unix.txt") fresh)
  = (Ok tt,
     {| win := win (after (open_file (R:=windows) "unix.txt") fresh);
        files := <["out.txt" := b "ab" ++ [x0d; x0a] ++ b "cd" ++ [x0d; x0a]]>
                   (files (after (open_file (R:=windows) "unix.txt") fresh)) |})
  /\ (@linesep windows = [LF] ->
      encode ascii_codec
        (@plain_text windows
           (display_text (win (after (open_file (R:=windows) "unix.txt") fresh))))
      = Some (b "ab" ++ [x0d; x0a] ++ b "cd" ++ [x0d; x0a]))
  /\ ((LF ∉ @plain_text windows
              (display_text
                 (win (after (open_file (R:=windows) "unix.txt") fresh)))) ->
      encode ascii_codec
        (@plain_text windows
           (display_text (win (after (open_file (R:=windows) "unix.txt") fresh))))
      = Some (b "ab" ++ [x0d; x0a] ++ b "cd" ++ [x0d; x0a])).
Proof.
  apply (@save_file_writes windows "out.txt"
           (after (open_file (R:=windows) "unix.txt") fresh) ascii_codec
           (b "ab" ++ [x0d; x0a] ++ b "cd" ++ [x0d; x0a])).
  - discriminate.
  - vm_compute. reflexivity.
  - vm_compute. reflexivity.
Defined.

(** On a platform whose line separator is [\n] the same rows are written as
    they are. *)
Example save_file_posix :
  files (after (save_file (R:=posix) "out.txt")
           (after (open_file (R:=posix) "unix.txt") fresh)) !! "out.txt"
  = Some unix_text.
Proof. vm_compute. reflexivity. Qed.

(** A load whose two decoding attempts fail raises the error of the second
    attempt; the rows are left as they were, the encoding is not: it is the
    label that the detection returned. *)
Lemma open_file_decode_error {R : Runtime} (file_path : string) (w : World)
    (bs : list byte) (e : exn) :
  file_path <> "" -> files w !! file_path = Some bs ->
  load_lines bs = Raise e ->
  open_file file_path w
  = (Raise e,
     {| win := with_encoding (chardet_detect (readline_bytes 1000 bs)) (win w);
        files := files w |}).
Proof.
  intros Hp Hf Hl. rewrite (open_file_run file_path w bs Hp Hf), Hl.
  reflexivity.
Qed.

(** C6. The code at the failing input: a window holds a document loaded
    from a Latin-1 file; loading a file whose first line is ASCII and whose
    second line is accepted neither as ASCII nor as UTF-8 raises the decode
    error and leaves the rows alone, but the encoding of the window has
    become [ascii], so that saving the document still displayed fails. *)
Lemma open_file_failure_changes_encoding :
  encoding (win (after (open_file (R:=posix) "cafe.txt") fresh))
  = Some "ISO-8859-1"
  /\ open_file (R:=posix) "bad.txt"
       (after (open_file (R:=posix) "cafe.txt") fresh)
     = (Raise UnicodeDecodeError,
        {| win := with_encoding (Some "ascii")
                    (win (after (open_file (R:=posix) "cafe.txt") fresh));
           files := files (after (open_file (R:=posix) "cafe.txt") fresh) |})
  /\ outcome (save_file (R:=posix) "out.txt")
       (after (open_file (R:=posix) "cafe.txt") fresh) = Ok tt
  /\ outcome (save_file (R:=posix) "out.txt")
       (after (open_file (R:=posix) "bad.txt")
          (after (open_file (R:=posix) "cafe.txt") fresh))
     = Raise UnicodeEncodeError
  /\ encoding (win fresh) = None
  /\ open_file (R:=posix) "bad.txt" fresh
     = (Raise UnicodeDecodeError,
        {| win := with_encoding (Some "ascii") (win fresh);
           files := files fresh |}).
Proof. vm_compute. repeat split. Qed.

(** When the first decoding attempt raises, the rows are those of the UTF-8
    decoding. *)
Lemma load_lines_fallback {R : Runtime} (bs : list byte) (e : exn) :
  decode_lines (chardet_detect (readline_bytes 1000 bs)) bs = Raise e ->
  load_lines bs
  = match utf8_decode bs with
    | Some text => Ok (readlines (universal_newlines text))
    | None => Raise UnicodeDecodeError
    end.
Proof. intros H. unfold load_lines. rewrite H. reflexivity. Qed.

(** When the detection gives no label and the codec of the locale accepts
    the content, the rows are those of the locale's decoding: UTF-8 is not
    tried. *)
Lemma load_lines_no_label {R : Runtime} (bs : list byte) (c : Codec)
    (text : str) :
  chardet_detect (readline_bytes 1000 bs) = None ->
  lookup_codec preferred_encoding = Some c -> decode c bs = Some text ->
  load_lines bs = Ok (readlines (universal_newlines text)).
Proof.
  intros Hd Hc Ht. unfold load_lines, decode_lines. rewrite Hd.
  change (resolve_encoding None) with preferred_encoding.
  rewrite Hc, Ht. reflexivity.
Qed.

(** C7. The code at the failing input: on a platform whose preferred
    encoding is cp1252, a file for which the detection gives no label is
    decoded with cp1252 and the load returns; the rows are not those of the
    UTF-8 decoding, which the file also admits. *)
Lemma open_file_no_label_uses_locale :
  @chardet_detect windows (readline_bytes 1000 coloured_log) = None
  /\ outcome (open_file (R:=windows) "log.txt") fresh = Ok tt
  /\ encoding (win (after (open_file (R:=windows) "log.txt") fresh)) = None
  /\ textfile_data (win (after (open_file (R:=windows) "log.txt") fresh))
     = Some [ [27%N] ++ u "[1mTitle" ++ [27%N] ++ u "[0m" ++ [LF];
              u "caf" ++ [195; 169; LF]%N ]
  /\ decode_lines (R:=windows) (Some "utf-8") coloured_log
     = Ok [ [27%N] ++ u "[1mTitle" ++ [27%N] ++ u "[0m" ++ [LF];
            u "caf" ++ [233; LF]%N ].
Proof. vm_compute. repeat split. Qed.

(** A path that names no file: the detection cannot open it. *)
Lemma open_file_missing {R : Runtime} (file_path : string) (w : World) :
  file_path <> "" -> files w !! file_path = None ->
  open_file file_path w = (Raise OSError, w).
Proof.
  intros Hp Hf. unfold open_file.
  rewrite bool_decide_eq_false_2 by exact Hp.
  unfold _detect_encoding, read_bytes.
  unfold mbind, M_bind, bind. rewrite Hf. reflexivity.
Qed.

Lemma readlines_universal_nil (text : str) :
  readlines (universal_newlines text) = [] <-> text = [].
Proof.
  rewrite readlines_nil. split; [|intros ->; reflexivity].
  destruct text as [|c [|c' text]]; simpl; [reflexivity | |].
  - destruct (c =? CR)%N; discriminate.
  - destruct (c =? CR)%N; [destruct (c' =? LF)%N|]; discriminate.
Qed.

(** A decoding attempt gives zero rows exactly when the codec decodes the
    content to the empty text. *)
Lemma decode_lines_nil {R : Runtime} (enc : option string) (bs : list byte) :
  decode_lines enc bs = Ok [] <->
  exists c, lookup_codec (resolve_encoding enc) = Some c /\ decode c bs = Some [].
Proof.
  split.
  - intros H. apply decode_lines_Ok in H as (c & text & Hc & Hd & Hr).
    symmetry in Hr. apply readlines_universal_nil in Hr. subst text. eauto.
  - intros (c & Hc & Hd). unfold decode_lines. rewrite Hc, Hd. reflexivity.
Qed.

(** C9. Loading a file that decodes to zero rows raises [ValueError]: the
    longest row is computed on the empty list, before the display and the
    tools are touched.  Hence every load that returns has stored at least
    one row and has enabled the filter button and the line edit: the branch
    of [open_file] that disables them for an empty file is never run. *)
Theorem open_file_empty_raises {R : Runtime} (file_path : string) (w : World)
    (bs : list byte) :
  file_path <> "" -> files w !! file_path = Some bs ->
  load_lines bs = Ok [] ->
  open_file file_path w
  = (Raise ValueError,
     {| win := with_textfile_data (Some [])
                 (with_encoding (chardet_detect (readline_bytes 1000 bs))
                    (win w));
        files := files w |})
  /\ (forall p w0 w',
        p <> "" -> open_file p w0 = (Ok tt, w') ->
        exists r rows,
          textfile_data (win w') = Some (r :: rows)
          /\ filter_button_disabled (win w') = false
          /\ line_edit_disabled (win w') = false).
Proof.
  intros Hp Hf Hl. split.
  - rewrite (open_file_run file_path w bs Hp Hf), Hl. reflexivity.
  - intros p w0 w' Hp0 Hrun.
    destruct (files w0 !! p) as [bs0|] eqn:Hf0.
    + destruct (open_file_Ok p w0 w' bs0 Hp0 Hf0 Hrun)
        as (rows & longest & _ & Hmax & ->).
      destruct rows as [|r rows]; [discriminate|].
      exists r, rows. repeat split.
    + rewrite (open_file_missing p w0 Hp0 Hf0) in Hrun. discriminate.
Qed.

Lemma open_file_empty_raises_witness :
  load_lines (R:=posix) [] = Ok []
  /\ open_file (R:=posix) "empty.txt" fresh
     = (Raise ValueError,
        {| win := with_textfile_data (Some [])
                    (with_encoding
                       (@chardet_detect posix (readline_bytes 1000 []))
                       (win fresh));
           files := files fresh |}).
Proof.
  split; [vm_compute; reflexivity|].
  apply (@open_file_empty_raises posix "empty.txt" fresh []).
  - discriminate.
  - vm_compute. reflexivity.
  - vm_compute. reflexivity.
Defined.

(** C8, as stated, fails: a Latin-1 file whose lines end with [\r] is
    detected as a whole, since its sample has no [\n], and loads cleanly;
    the saved copy has [\n] terminators, its sample is the ASCII first line
    alone, it is detected as [ascii], and loading it raises a decode
    error. *)
Lemma reload_after_save_fails :
  outcome (open_file (R:=posix) "mac.txt") fresh = Ok tt
  /\ encoding (win (after (open_file (R:=posix) "mac.txt") fresh))
     = Some "ISO-8859-1"
  /\ decode_lines (R:=posix) (Some "ISO-8859-1") mac_latin1_text
     = Ok [u "abc" ++ [LF]; [233; 116; 233; LF]%N]
  /\ textfile_data (win (after (open_file (R:=posix) "mac.txt") fresh))
     = Some [u "abc" ++ [LF]; [233; 116; 233; LF]%N]
  /\ outcome (save_file (R:=posix) "copy.txt")
       (after (open_file (R:=posix) "mac.txt") fresh) = Ok tt
  /\ files (after (save_file (R:=posix) "copy.txt")
              (after (open_file (R:=posix) "mac.txt") fresh)) !! "copy.txt"
     = Some (b "abc" ++ [x0a; xe9; x74; xe9; x0a])
  /\ outcome (open_file (R:=posix) "copy.txt")
       (after (save_file (R:=posix) "copy.txt")
          (after (open_file (R:=posix) "mac.txt") fresh))
     = Raise UnicodeDecodeError.
Proof. vm_compute. repeat split. Qed.

(** C8, amended. Take an input file whose content is decoded by the first
    attempt of [open_file], with the codec of the detected encoding, and
    whose load returns (the content is not empty).  If the display gives
    back the joined rows as they were set, if the full view is saved under
    the same encoding and the save returns, if the codec decodes the bytes
    it wrote to the text it was given, and if the saved copy is detected
    with the same encoding as the input file, then loading the saved copy
    returns and yields the rows of the original load, whatever the line
    separator of the platform.  The condition on the display is needed:
    [toPlainText] does not give back every character as it was set (a
    no-break space comes back as a space), and such a row is saved, and
    loaded again, changed. *)
Theorem load_save_load {R : Runtime} (path newpath : string)
    (w w1 w2 : World) (bs : list byte) (c : Codec) (rows : list str) :
  path <> "" -> newpath <> "" ->
  files w !! path = Some bs ->
  decode_lines (chardet_detect (readline_bytes 1000 bs)) bs = Ok rows ->
  lookup_codec (resolve_encoding (chardet_detect (readline_bytes 1000 bs)))
  = Some c ->
  is_linesep linesep ->
  plain_text (join rows) = join rows ->
  open_file path w = (Ok tt, w1) ->
  save_file newpath w1 = (Ok tt, w2) ->
  (forall bs',
     encode c (translate_newlines_out linesep (join rows)) = Some bs' ->
     decode c bs' = Some (translate_newlines_out linesep (join rows))
     /\ chardet_detect (readline_bytes 1000 bs')
        = chardet_detect (readline_bytes 1000 bs)) ->
  exists w3,
    open_file newpath w2 = (Ok tt, w3)
    /\ textfile_data (win w1) = Some rows
    /\ textfile_data (win w3) = Some rows.
Proof.
  intros Hp Hn Hf Hdec Hc Hsep Hplain Hopen Hsave Hcopy.
  set (enc := chardet_detect (readline_bytes 1000 bs)) in *.
  (* the first load *)
  destruct (open_file_Ok path w w1 bs Hp Hf Hopen)
    as (rows1 & longest & Hload & Hmax & ->).
  unfold load_lines in Hload. fold enc in Hload. rewrite Hdec in Hload.
  injection Hload as <-. fold enc in Hsave.
  (* the rows hold no carriage return *)
  destruct (decode_lines_Ok enc bs rows Hdec) as (c0 & text & _ & _ & Hrows).
  assert (Hjoin : join rows = universal_newlines text)
    by (rewrite Hrows; apply join_readlines).
  assert (HCR : CR ∉ join rows)
    by (rewrite Hjoin; apply universal_newlines_no_CR).
  (* the save *)
  rewrite (save_file_run newpath _ Hn) in Hsave.
  cbn [win encoding display_text loaded_window with_open_file_path_label
       with_width with_display_disabled with_line_edit_disabled
       with_filter_button_disabled with_display_text with_textfile_data
       with_encoding files] in Hsave.
  rewrite Hc, Hplain in Hsave.
  destruct (encode c (translate_newlines_out linesep (join rows)))
    as [bs'|] eqn:Henc; [|discriminate].
  injection Hsave as <-.
  destruct (Hcopy bs' eq_refl) as [Hback Hdetect].
  (* the second load *)
  assert (Hf' : files {| win := loaded_window path enc rows longest (win w);
                         files := <[newpath := bs']> (files w) |}
                !! newpath = Some bs')
    by (cbn [files]; apply lookup_insert_eq).
  rewrite (open_file_run newpath _ bs' Hn Hf').
  unfold load_lines, decode_lines. rewrite Hdetect. fold enc.
  rewrite Hc, Hback.
  rewrite (universal_newlines_translate_out linesep (join rows) Hsep HCR).
  assert (Hre : readlines (join rows) = rows)
    by (rewrite Hjoin; symmetry; exact Hrows).
  rewrite Hre, Hmax.
  eexists. split; [reflexivity|]. split; reflexivity.
Qed.

Lemma load_save_load_witness :
  exists w3,
    open_file (R:=windows) "copy.txt"
      (after (save_file (R:=windows) "copy.txt")
         (after (open_file (R:=windows) "mixed.txt") fresh))
    = (Ok tt, w3)
    /\ textfile_data (win (after (open_file (R:=windows) "mixed.txt") fresh))
       = Some [u "ab" ++ [LF]; u "cd" ++ [LF]; u "ef" ++ [LF]; u "gh"]
    /\ textfile_data (win w3)
       = Some [u "ab" ++ [LF]; u "cd" ++ [LF]; u "ef" ++ [LF]; u "gh"].
Proof.
  apply (@load_save_load windows "mixed.txt" "copy.txt" fresh
           (after (open_file (R:=windows) "mixed.txt") fresh)
           (after (save_file (R:=windows) "copy.txt")
              (after (open_file (R:=windows) "mixed.txt") fresh))
           mixed_text ascii_codec
           [u "ab" ++ [LF]; u "cd" ++ [LF]; u "ef" ++ [LF]; u "gh"]).
  - discriminate.
  - discriminate.
  - vm_compute. reflexivity.
  - vm_compute. reflexivity.
  - vm_compute. reflexivity.
  - right. left. reflexivity.
  - reflexivity.
  - vm_compute. reflexivity.
  - vm_compute. reflexivity.
  - intros bs' H. vm_compute in H. injection H as <-.
    split; vm_compute; reflexivity.
Defined.

(** The copy that the witness saves has [\r\n] after every row that ends
    with [\n]. *)
Example save_file_mixed_copy :
  files (after (save_file (R:=windows) "copy.txt")
           (after (open_file (R:=windows) "mixed.txt") fresh)) !! "copy.txt"
  = Some (b "ab" ++ [x0d; x0a] ++ b "cd" ++ [x0d; x0a]
          ++ b "ef" ++ [x0d; x0a] ++ b "gh").
Proof. vm_compute. reflexivity. Qed.

End Claims.

(** ** The wiring of the widgets *)

Section Wiring.

Context {R : Runtime}.

Lemma filter_button_click_run (m : MainWindow) (fs : gmap string (list byte)) :
  filter_button_click {| win := m; files := fs |}
  = if filter_button_disabled m then (Ok tt, {| win := m; files := fs |})
    else match textfile_data m with
         | Some data =>
           (Ok tt,
            {| win := with_display_text
                        (join (filter_rows (line_edit_text m) data)) m;
               files := fs |})
         | None => (Raise TypeError, {| win := m; files := fs |})
         end.
Proof.
  unfold filter_button_click, filter_display, self_textfile_data,
    display_setPlainText.
  unfold mbind, M_bind, bind, mret, M_ret, ret, attr, assign.
  cbn [win files]. destruct (filter_button_disabled m); [reflexivity|].
  cbn [win files]. destruct (textfile_data m); reflexivity.
Qed.

Lemma line_edit_setText_run (s : str) (m : MainWindow)
    (fs : gmap string (list byte)) :
  line_edit_setText s {| win := m; files := fs |}
  = if bool_decide (s = line_edit_text m)
    then (Ok tt, {| win := with_line_edit_text s m; files := fs |})
    else if live_filtering m
         then filter_button_click
                {| win := with_line_edit_text s m; files := fs |}
         else (Ok tt, {| win := with_line_edit_text s m; files := fs |}).
Proof.
  unfold line_edit_setText.
  unfold mbind, M_bind, bind, mret, M_ret, ret, attr, assign.
  cbn [win files live_filtering with_line_edit_text].
  destruct (bool_decide _); [reflexivity|].
  destruct (live_filtering m); reflexivity.
Qed.

Lemma checkbox_click_run (m : MainWindow) (fs : gmap string (list byte)) :
  do_live_search_checkbox_click {| win := m; files := fs |}
  = if live_filtering m
    then (Ok tt, {| win := with_live_filtering false m; files := fs |})
    else filter_button_click
           {| win := with_live_filtering true m; files := fs |}.
Proof.
  unfold do_live_search_checkbox_click, handle_filtering_mode.
  unfold mbind, M_bind, bind, mret, M_ret, ret, attr, assign.
  cbn [win files]. destruct (live_filtering m) eqn:E; cbn [negb win files].
  - rewrite E. reflexivity.
  - reflexivity.
Qed.

(** [close_file] in closed form, for a window whose enabled filter button
    has rows to filter. *)
Lemma close_file_run_ok (m : MainWindow) (fs : gmap string (list byte)) :
  (filter_button_disabled m = false -> exists rows, textfile_data m = Some rows) ->
  close_file {| win := m; files := fs |}
  = (Ok tt, {| win := closed_window m; files := fs |}).
Proof.
  intros Hok. unfold close_file, display_setPlainText.
  unfold mbind at 1. unfold M_bind at 1. unfold bind at 1.
  rewrite line_edit_setText_run.
  destruct (bool_decide _).
  - reflexivity.
  - destruct (live_filtering m); [|reflexivity].
    rewrite filter_button_click_run.
    cbn [filter_button_disabled textfile_data with_line_edit_text].
    destruct (filter_button_disabled m) eqn:E; [reflexivity|].
    destruct (Hok eq_refl) as [rows ->]. reflexivity.
Qed.

End Wiring.

(** ** Sessions *)

Section Sessions.

Context {R : Runtime}.

Lemma load_lines_Ok (bs : list byte) (rows : list str) :
  load_lines bs = Ok rows ->
  exists c text,
    decode c bs = Some text /\ rows = readlines (universal_newlines text).
Proof.
  unfold load_lines.
  destruct (decode_lines (chardet_detect (readline_bytes 1000 bs)) bs)
    as [rows0|e] eqn:E.
  - intros [= <-]. apply decode_lines_Ok in E as (c & text & _ & Hd & Hr). eauto.
  - intros H. apply decode_lines_Ok in H as (c & text & _ & Hd & Hr). eauto.
Qed.

Lemma load_lines_shaped (bs : list byte) (rows : list str) :
  load_lines bs = Ok rows -> Forall line_shaped rows /\ (CR ∉ join rows).
Proof.
  intros H. apply load_lines_Ok in H as (c & text & _ & ->). split.
  - apply readlines_shaped.
  - rewrite join_readlines. apply universal_newlines_no_CR.
Qed.

(** The second decoding attempt finds its codec: it can only fail on the
    content. *)
Lemma load_lines_Raise (bs : list byte) (e : exn) :
  load_lines bs = Raise e -> e = UnicodeDecodeError.
Proof.
  unfold load_lines.
  destruct (decode_lines (chardet_detect (readline_bytes 1000 bs)) bs);
    [discriminate|].
  unfold decode_lines. change (resolve_encoding (Some "utf-8")) with "utf-8".
  rewrite lookup_codec_utf8.
  destruct (decode utf8_codec bs); [discriminate|]. intros [= <-]. reflexivity.
Qed.

(** The ways [open_file] can end. *)
Lemma open_file_cases (file_path : string) (m : MainWindow)
    (fs : gmap string (list byte)) :
  let w := {| win := m; files := fs |} in
  (file_path = "" /\ open_file file_path w = (Ok tt, w))
  \/ (file_path <> "" /\ fs !! file_path = None
      /\ open_file file_path w = (Raise OSError, w))
  \/ exists bs,
       file_path <> "" /\ fs !! file_path = Some bs
       /\ let enc := chardet_detect (readline_bytes 1000 bs) in
          (load_lines bs = Raise UnicodeDecodeError
           /\ open_file file_path w
              = (Raise UnicodeDecodeError,
                 {| win := with_encoding enc m; files := fs |}))
          \/ (load_lines bs = Ok []
              /\ open_file file_path w
                 = (Raise ValueError,
                    {| win := with_textfile_data (Some []) (with_encoding enc m);
                       files := fs |}))
          \/ (exists rows longest,
                load_lines bs = Ok rows /\ max_by_len rows = Some longest
                /\ open_file file_path w
                   = (Ok tt,
                      {| win := loaded_window file_path enc rows longest m;
                         files := fs |})).
Proof.
  intros w. destruct (decide (file_path = "")) as [->|Hp].
  - left. split; reflexivity.
  - right. destruct (fs !! file_path) as [bs|] eqn:Hf.
    + right. exists bs. split; [exact Hp|]. split; [reflexivity|].
      intros enc. rewrite (open_file_run file_path w bs Hp Hf). fold enc.
      destruct (load_lines bs) as [rows|e] eqn:Hl.
      * destruct (max_by_len rows) as [longest|] eqn:Hmax.
        -- right. right. exists rows, longest. auto.
        -- apply max_by_len_None in Hmax. subst rows. right. left. auto.
      * pose proof (load_lines_Raise bs e Hl) as ->. left. auto.
    + left. split; [exact Hp|]. split; [reflexivity|].
      apply (open_file_missing file_path w Hp Hf).
Qed.

Lemma window_ok_init : window_ok init.
Proof.
  split; [discriminate|]. split; [reflexivity|]. split; [reflexivity|].
  discriminate.
Qed.

Lemma window_ok_display (m : MainWindow) (t : str) :
  window_ok m -> window_ok (with_display_text t m).
Proof. intros H. exact H. Qed.

Lemma filter_button_click_ok (m : MainWindow) (fs : gmap string (list byte)) :
  window_ok m ->
  fst (filter_button_click {| win := m; files := fs |}) = Ok tt
  /\ window_ok (win (snd (filter_button_click {| win := m; files := fs |}))).
Proof.
  intros Hok. rewrite filter_button_click_run.
  destruct (filter_button_disabled m) eqn:E; [split; [reflexivity | exact Hok]|].
  destruct Hok as (Hdata & Hrest). destruct (Hdata E) as [rows Hrows].
  rewrite Hrows. split; [reflexivity|]. cbn [snd win].
  apply window_ok_display. split; assumption.
Qed.

(** An event keeps the window in order, and only loading and saving can
    raise: loading raises [OSError], [UnicodeDecodeError] or [ValueError],
    saving [LookupError] or [UnicodeEncodeError] (the file system of the
    model accepts every write). *)
Lemma handle_ok (e : Event) (w : World) :
  window_ok (win w) ->
  window_ok (win (step w e))
  /\ match e with
     | OpenFile _ =>
       fst (handle e w) = Ok tt \/ fst (handle e w) = Raise OSError
       \/ fst (handle e w) = Raise UnicodeDecodeError
       \/ fst (handle e w) = Raise ValueError
     | SaveFile _ =>
       fst (handle e w) = Ok tt \/ fst (handle e w) = Raise LookupError
       \/ fst (handle e w) = Raise UnicodeEncodeError
     | _ => fst (handle e w) = Ok tt
     end.
Proof.
  destruct w as [m fs]. cbn [win]. intros Hok. unfold step.
  destruct e as [p|name| |s| | |fs']; cbn [handle].
  - destruct (open_file_cases p m fs)
      as [[_ ->] | [(_ & _ & ->) | (bs & _ & _ & [[Hl ->] | [[Hl ->] | Hrun]])]];
      cbn [fst snd win]; try (split; [exact Hok | tauto]).
    + split; [|tauto]. destruct Hok as (H1 & H2 & H3 & H4).
      split; [|split; [|split]]; cbn; try assumption.
      * intros _. eauto.
      * intros rows [= <-]. split; [constructor | apply not_elem_of_nil].
    + destruct Hrun as (rows & longest & Hl & Hmax & ->). cbn [fst snd win].
      split; [|tauto]. split; [|split; [|split]]; cbn; try reflexivity.
      * intros _. eauto.
      * intros rows' [= <-]. apply (load_lines_shaped bs rows Hl).
  - destruct (decide (name = "")) as [->|Hn].
    + cbn. split; [exact Hok | tauto].
    + rewrite (save_file_run name _ Hn). cbn [win].
      destruct (lookup_codec _) as [c|]; [destruct (encode c _)|];
        cbn [fst snd win]; (split; [exact Hok | tauto]).
  - rewrite (close_file_run_ok m fs (proj1 Hok)). cbn [fst snd win].
    split; [|reflexivity]. destruct Hok as (H1 & H2 & H3 & H4).
    split; [|split; [|split]]; cbn; try reflexivity; try discriminate.
    exact H4.
  - rewrite line_edit_setText_run.
    assert (Hok' : window_ok (with_line_edit_text s m)) by exact Hok.
    destruct (bool_decide _); [split; [exact Hok' | reflexivity]|].
    destruct (live_filtering m); [|split; [exact Hok' | reflexivity]].
    destruct (filter_button_click_ok _ fs Hok') as [H1 H2]. split; assumption.
  - destruct (filter_button_click_ok m fs Hok) as [H1 H2]. split; assumption.
  - rewrite checkbox_click_run.
    destruct (live_filtering m); [split; [exact Hok | reflexivity]|].
    assert (Hok' : window_ok (with_live_filtering true m)) by exact Hok.
    destruct (filter_button_click_ok _ fs Hok') as [H1 H2]. split; assumption.
  - cbn. split; [exact Hok | reflexivity].
Qed.

Lemma run_ok (es : list Event) (w : World) :
  window_ok (win w) -> window_ok (win (run es w)).
Proof.
  revert w. induction es as [|e es IH]; intros w Hok; [exact Hok|].
  apply IH. apply (handle_ok e w Hok).
Qed.

End Sessions.

(** ** Further properties of loading *)

Section LoadingMore.

Import Samples.

Lemma max_by_len_spec (rows : list str) (m : str) :
  max_by_len rows = Some m ->
  exists pre post,
    rows = pre ++ m :: post
    /\ (forall r, r ∈ pre -> (length r < length m)%nat)
    /\ (forall r, r ∈ post -> (length r <= length m)%nat).
Proof.
  revert m. induction rows as [|r rows IH]; intros m; simpl; [discriminate|].
  destruct (max_by_len rows) as [m'|] eqn:E.
  - destruct (IH m' eq_refl) as (pre & post & Hrows & Hpre & Hpost).
    destruct (length r <? length m')%nat eqn:Hlt.
    + intros [= <-]. apply Nat.ltb_lt in Hlt.
      exists (r :: pre), post. rewrite Hrows. split; [reflexivity|].
      split; [|exact Hpost].
      intros x Hx. apply elem_of_cons in Hx as [->|Hx]; [exact Hlt | auto].
    + intros [= <-]. apply Nat.ltb_ge in Hlt.
      exists [], rows. split; [reflexivity|]. split.
      * intros x Hx. apply elem_of_nil in Hx. contradiction.
      * intros x Hx. rewrite Hrows in Hx.
        apply elem_of_app in Hx as [Hx|Hx].
        -- apply Hpre in Hx. lia.
        -- apply elem_of_cons in Hx as [->|Hx]; [lia|]. apply Hpost in Hx. lia.
  - apply max_by_len_None in E. subst rows. intros [= <-].
    exists [], []. split; [reflexivity|].
    split; intros x Hx; apply elem_of_nil in Hx; contradiction.
Qed.

Lemma replace_slash_no_slash (s : string) (n : nat) :
  String.get n (replace_slash s) <> Some "/"%char.
Proof.
  revert n. induction s as [|a s IH]; intros n; simpl; [discriminate|].
  destruct n as [|n]; [|apply IH].
  destruct (Ascii.eqb a "/") eqn:E; [discriminate|].
  apply Ascii.eqb_neq in E. congruence.
Qed.

(** X1. A path that names no file makes [open_file] raise [OSError] from
    the detection, before anything is assigned: the window and the files are
    as before.  A cancelled dialog (the empty path) does nothing either. *)
Theorem open_file_missing_file {R : Runtime} (file_path : string) (w : World) :
  file_path <> "" -> files w !! file_path = None ->
  open_file file_path w = (Raise OSError, w)
  /\ open_file "" w = (Ok tt, w).
Proof.
  intros Hp Hf. split; [apply (open_file_missing file_path w Hp Hf)|].
  reflexivity.
Qed.

Lemma open_file_missing_file_witness :
  open_file (R:=posix) "nowhere.txt" fresh = (Raise OSError, fresh)
  /\ open_file (R:=posix) "" fresh = (Ok tt, fresh).
Proof.
  apply (@open_file_missing_file posix "nowhere.txt" fresh).
  - discriminate.
  - vm_compute. reflexivity.
Defined.

(** X2. A load that returns shows the whole file, whatever text the line
    edit holds: the display is the join of all the rows, the text of the
    line edit and the filtering mode are kept, the three tools are enabled,
    the label is the path with every [/] replaced by a backslash, the
    encoding is the detected label and no file is touched. *)
Theorem open_file_shows_whole_file {R : Runtime} (file_path : string)
    (w w' : World) (bs : list byte) :
  file_path <> "" -> files w !! file_path = Some bs ->
  open_file file_path w = (Ok tt, w') ->
  exists rows,
    textfile_data (win w') = Some rows
    /\ display_text (win w') = join rows
    /\ line_edit_text (win w') = line_edit_text (win w)
    /\ live_filtering (win w') = live_filtering (win w)
    /\ filter_button_disabled (win w') = false
    /\ line_edit_disabled (win w') = false
    /\ display_disabled (win w') = false
    /\ open_file_path_label (win w') = replace_slash file_path
    /\ (forall n, String.get n (open_file_path_label (win w')) <> Some "/"%char)
    /\ encoding (win w') = chardet_detect (readline_bytes 1000 bs)
    /\ files w' = files w.
Proof.
  intros Hp Hf Hrun.
  destruct (open_file_Ok file_path w w' bs Hp Hf Hrun)
    as (rows & longest & _ & _ & ->).
  exists rows. cbn. repeat split. apply replace_slash_no_slash.
Qed.

Lemma open_file_shows_whole_file_witness :
  line_edit_text
    (win (run (R:=posix) [OpenFile "cities.csv"; EditText (u "City1")] fresh))
  = u "City1"
  /\ exists rows,
       textfile_data
         (win (run (R:=posix)
                 [OpenFile "cities.csv"; EditText (u "City1");
                  OpenFile "unix.txt"] fresh)) = Some rows
       /\ display_text
            (win (run (R:=posix)
                    [OpenFile "cities.csv"; EditText (u "City1");
                     OpenFile "unix.txt"] fresh)) = join rows
       /\ line_edit_text
            (win (run (R:=posix)
                    [OpenFile "cities.csv"; EditText (u "City1");
                     OpenFile "unix.txt"] fresh)) = u "City1".
Proof.
  split; [vm_compute; reflexivity|].
  destruct (@open_file_shows_whole_file posix "unix.txt"
              (run (R:=posix) [OpenFile "cities.csv"; EditText (u "City1")] fresh)
              (run (R:=posix)
                 [OpenFile "cities.csv"; EditText (u "City1");
                  OpenFile "unix.txt"] fresh)
              unix_text)
    as (rows & H1 & H2 & H3 & _).
  - discriminate.
  - vm_compute. reflexivity.
  - vm_compute. reflexivity.
  - exists rows. split; [exact H1|]. split; [exact H2|].
    rewrite H3. vm_compute. reflexivity.
Defined.

(** X3. A load that returns asks [self.resize] for the width that the font
    of the display gives to a longest row, plus 50: the row measured is a
    row of the document, no row is longer, and it is the first row of that
    length.  (The width asked for is what [width] records; the window on
    screen also obeys the minimum width set in [build_display].) *)
Theorem open_file_asks_width_of_longest_row {R : Runtime} (file_path : string)
    (w w' : World) (bs : list byte) :
  file_path <> "" -> files w !! file_path = Some bs ->
  open_file file_path w = (Ok tt, w') ->
  exists pre longest post,
    textfile_data (win w') = Some (pre ++ longest :: post)
    /\ width (win w') = (font_width longest + 50)%Z
    /\ (forall r, r ∈ pre -> (length r < length longest)%nat)
    /\ (forall r, r ∈ post -> (length r <= length longest)%nat).
Proof.
  intros Hp Hf Hrun.
  destruct (open_file_Ok file_path w w' bs Hp Hf Hrun)
    as (rows & longest & _ & Hmax & ->).
  destruct (max_by_len_spec rows longest Hmax) as (pre & post & -> & H1 & H2).
  exists pre, longest, post. cbn. auto.
Qed.

Lemma open_file_asks_width_of_longest_row_witness :
  exists pre longest post,
    textfile_data (win (after (open_file (R:=posix) "cities.csv") fresh))
    = Some (pre ++ longest :: post)
    /\ width (win (after (open_file (R:=posix) "cities.csv") fresh))
       = (@font_width posix longest + 50)%Z
    /\ (forall r, r ∈ pre -> (length r < length longest)%nat)
    /\ (forall r, r ∈ post -> (length r <= length longest)%nat).
Proof.
  apply (@open_file_asks_width_of_longest_row posix "cities.csv" fresh
           (after (open_file (R:=posix) "cities.csv") fresh) cities).
  - discriminate.
  - vm_compute. reflexivity.
  - vm_compute. reflexivity.
Defined.

End LoadingMore.

Section LoadingIndependence.

Import Samples.

(** X4. A load replaces the document wholesale: in front of the same files,
    the outcome of [open_file] does not depend on the window it starts from,
    and when it returns, the rows, the encoding, the text of the display,
    the label and the state of the tools are those of the new file alone.
    (Nothing is said of the width, which is measured with the font that the
    window has.) *)
Theorem open_file_replaces_document {R : Runtime} (file_path : string)
    (m1 m2 : MainWindow) (fs : gmap string (list byte)) :
  file_path <> "" ->
  let r1 := open_file file_path {| win := m1; files := fs |} in
  let r2 := open_file file_path {| win := m2; files := fs |} in
  fst r1 = fst r2
  /\ (fst r1 = Ok tt ->
      textfile_data (win (snd r1)) = textfile_data (win (snd r2))
      /\ encoding (win (snd r1)) = encoding (win (snd r2))
      /\ display_text (win (snd r1)) = display_text (win (snd r2))
      /\ open_file_path_label (win (snd r1)) = open_file_path_label (win (snd r2))
      /\ filter_button_disabled (win (snd r1))
         = filter_button_disabled (win (snd r2))
      /\ line_edit_disabled (win (snd r1)) = line_edit_disabled (win (snd r2))
      /\ display_disabled (win (snd r1)) = display_disabled (win (snd r2))).
Proof.
  intros Hp r1 r2. subst r1 r2.
  destruct (fs !! file_path) as [bs|] eqn:Hf.
  - rewrite (open_file_run file_path {| win := m1; files := fs |} bs Hp Hf).
    rewrite (open_file_run file_path {| win := m2; files := fs |} bs Hp Hf).
    destruct (load_lines bs) as [rows|e]; [|split; [reflexivity | discriminate]].
    destruct (max_by_len rows) as [longest|];
      [|split; [reflexivity | discriminate]].
    split; [reflexivity|]. intros _. cbn. repeat split.
  - rewrite (open_file_missing file_path {| win := m1; files := fs |} Hp Hf).
    rewrite (open_file_missing file_path {| win := m2; files := fs |} Hp Hf).
    split; [reflexivity | discriminate].
Qed.

Lemma open_file_replaces_document_witness :
  fst (open_file (R:=posix) "unix.txt" fresh)
  = fst (open_file (R:=posix) "unix.txt"
           (after (open_file (R:=posix) "cafe.txt") fresh))
  /\ textfile_data (win (snd (open_file (R:=posix) "unix.txt" fresh)))
     = textfile_data
         (win (snd (open_file (R:=posix) "unix.txt"
                      (after (open_file (R:=posix) "cafe.txt") fresh)))).
Proof.
  destruct (@open_file_replaces_document posix "unix.txt" init
              (win (after (open_file (R:=posix) "cafe.txt") fresh))
              (list_to_map disk))
    as [H1 H2].
  - discriminate.
  - split; [exact H1|]. apply H2. vm_compute. reflexivity.
Defined.

Lemma readline_bytes_cons (limit : nat) (x : byte) (bs : list byte) :
  readline_bytes (S limit) (x :: bs)
  = if Byte.eqb x x0a then [x] else x :: readline_bytes limit bs.
Proof. reflexivity. Qed.

Lemma readline_bytes_line (limit : nat) (line rest : list byte) :
  x0a ∉ line -> (length line < limit)%nat ->
  readline_bytes limit (line ++ x0a :: rest) = line ++ [x0a].
Proof.
  revert limit. induction line as [|x line IH]; intros limit Hno Hlen.
  - destruct limit; [simpl in Hlen; lia | reflexivity].
  - apply not_elem_of_cons in Hno as [Hx Hno].
    destruct limit as [|limit]; [simpl in Hlen; lia|].
    simpl in Hlen. cbn [app]. rewrite readline_bytes_cons.
    destruct (Byte.eqb x x0a) eqn:E.
    + apply Byte.byte_dec_bl in E. congruence.
    + rewrite IH by (assumption || lia). reflexivity.
Qed.

Lemma readline_bytes_limit (pre rest : list byte) :
  x0a ∉ pre ->
  readline_bytes (length pre) (pre ++ rest) = pre.
Proof.
  induction pre as [|x pre IH]; intros Hno; [reflexivity|].
  apply not_elem_of_cons in Hno as [Hx Hno].
  cbn [length app]. rewrite readline_bytes_cons.
  destruct (Byte.eqb x x0a) eqn:E.
  - apply Byte.byte_dec_bl in E. congruence.
  - rewrite IH by assumption. reflexivity.
Qed.

(** X5. The detection reads the first line only: for a file whose first
    line is shorter than 1000 bytes, the label is the answer of the detector
    on that line with its [\n], whatever follows it in the file; the world
    is left as it is. *)
Theorem detect_encoding_reads_first_line {R : Runtime} (file_path : string)
    (w : World) (line rest : list byte) :
  x0a ∉ line -> (length line < 1000)%nat ->
  files w !! file_path = Some (line ++ x0a :: rest) ->
  _detect_encoding file_path w = (Ok (chardet_detect (line ++ [x0a])), w).
Proof.
  intros Hno Hlen Hf. unfold _detect_encoding, read_bytes.
  unfold mbind, M_bind, bind, mret, M_ret, ret. rewrite Hf. cbn [or_raise ret].
  rewrite (readline_bytes_line 1000 line rest Hno Hlen). reflexivity.
Qed.

Lemma detect_encoding_reads_first_line_witness :
  _detect_encoding (R:=posix) "bad.txt" fresh
  = (Ok (@chardet_detect posix (b "abc" ++ [x0a])), fresh).
Proof.
  apply (@detect_encoding_reads_first_line posix "bad.txt" fresh
           (b "abc") [xff; x0a]).
  - intros H. repeat (apply elem_of_cons in H as [H|H]; [discriminate|]).
    apply elem_of_nil in H. exact H.
  - simpl. lia.
  - vm_compute. reflexivity.
Defined.

(** X6. The detection never reads past 1000 bytes: for a file whose first
    1000 bytes hold no [\n], the label is the answer of the detector on
    these 1000 bytes, whatever follows them. *)
Theorem detect_encoding_reads_1000_bytes {R : Runtime} (file_path : string)
    (w : World) (pre rest : list byte) :
  x0a ∉ pre -> length pre = 1000%nat ->
  files w !! file_path = Some (pre ++ rest) ->
  _detect_encoding file_path w = (Ok (chardet_detect pre), w).
Proof.
  intros Hno Hlen Hf. unfold _detect_encoding, read_bytes.
  unfold mbind, M_bind, bind, mret, M_ret, ret. rewrite Hf. cbn [or_raise ret].
  rewrite <- Hlen, (readline_bytes_limit pre rest Hno). reflexivity.
Qed.

Lemma detect_encoding_reads_1000_bytes_witness :
  _detect_encoding (R:=posix) "long.txt"
    (world init [("long.txt", repeat x61 1000 ++ [xe9; x0a])])
  = (Ok (@chardet_detect posix (repeat x61 1000)),
     world init [("long.txt", repeat x61 1000 ++ [xe9; x0a])]).
Proof.
  apply (@detect_encoding_reads_1000_bytes posix "long.txt"
           (world init [("long.txt", repeat x61 1000 ++ [xe9; x0a])])
           (repeat x61 1000) [xe9; x0a]).
  - intros H. apply list_elem_of_In, repeat_spec in H. discriminate.
  - apply repeat_length.
  - unfold world. cbn [files list_to_map foldr]. apply lookup_insert_eq.
Defined.

(** X7. A load whose two decoding attempts fail leaves the view alone: the
    rows, the display, the text of the line edit, the state of the tools,
    the label, the width and the files are as before. *)
Theorem open_file_decode_error_keeps_view {R : Runtime} (file_path : string)
    (w : World) (bs : list byte) (e : exn) :
  file_path <> "" -> files w !! file_path = Some bs ->
  load_lines bs = Raise e ->
  let r := open_file file_path w in
  fst r = Raise UnicodeDecodeError
  /\ textfile_data (win (snd r)) = textfile_data (win w)
  /\ display_text (win (snd r)) = display_text (win w)
  /\ line_edit_text (win (snd r)) = line_edit_text (win w)
  /\ filter_button_disabled (win (snd r)) = filter_button_disabled (win w)
  /\ line_edit_disabled (win (snd r)) = line_edit_disabled (win w)
  /\ display_disabled (win (snd r)) = display_disabled (win w)
  /\ open_file_path_label (win (snd r)) = open_file_path_label (win w)
  /\ width (win (snd r)) = width (win w)
  /\ files (snd r) = files w.
Proof.
  intros Hp Hf Hl r. subst r.
  rewrite (open_file_decode_error file_path w bs e Hp Hf Hl).
  rewrite (load_lines_Raise bs e Hl). cbn. repeat split.
Qed.

Lemma open_file_decode_error_keeps_view_witness :
  fst (open_file (R:=posix) "bad.txt"
         (after (open_file (R:=posix) "unix.txt") fresh))
  = Raise UnicodeDecodeError
  /\ textfile_data
       (win (snd (open_file (R:=posix) "bad.txt"
                    (after (open_file (R:=posix) "unix.txt") fresh))))
     = textfile_data (win (after (open_file (R:=posix) "unix.txt") fresh)).
Proof.
  destruct (@open_file_decode_error_keeps_view posix "bad.txt"
              (after (open_file (R:=posix) "unix.txt") fresh)
              broken_text UnicodeDecodeError)
    as (H1 & H2 & _).
  - discriminate.
  - vm_compute. reflexivity.
  - vm_compute. reflexivity.
  - split; [exact H1 | exact H2].
Defined.

End LoadingIndependence.

(** ** Further properties of saving *)

Section SavingMore.

Import Samples.

(** X8. [save_file] never changes the window and touches no file but the
    one named: every other path holds what it held.  When the codec of the
    window's encoding is unknown or cannot encode the text, the file named
    is left empty, because it is opened for writing before the codec is
    looked up and the text encoded. *)
Theorem save_file_touches_one_file {R : Runtime} (name : string) (w : World) :
  win (snd (save_file name w)) = win w
  /\ (forall other, other <> name ->
        files (snd (save_file name w)) !! other = files w !! other)
  /\ (fst (save_file name w) = Raise LookupError
      \/ fst (save_file name w) = Raise UnicodeEncodeError ->
      files (snd (save_file name w)) !! name = Some []).
Proof.
  destruct (decide (name = "")) as [->|Hn].
  - cbn. split; [reflexivity|]. split; [reflexivity|].
    intros [H|H]; discriminate.
  - rewrite (save_file_run name w Hn).
    destruct (lookup_codec _) as [c|]; [destruct (encode c _) as [bs|]|];
      cbn [fst snd win files].
    + split; [reflexivity|]. split; [|intros [H|H]; discriminate].
      intros other Ho. apply lookup_insert_ne. congruence.
    + split; [reflexivity|]. split; [|intros _; apply lookup_insert_eq].
      intros other Ho. apply lookup_insert_ne. congruence.
    + split; [reflexivity|]. split; [|intros _; apply lookup_insert_eq].
      intros other Ho. apply lookup_insert_ne. congruence.
Qed.

(** X9. The file saved holds what the display shows: after the text [q] is
    entered under live filtering in a window that holds a document, the
    display is set to the join of the rows that match [q], and [save_file]
    writes the encoding of the text that the display gives back for it
    ([toPlainText]), with the newlines translated for the platform, and of
    nothing else.  Where the display gives back the text as it was set, the
    file is the encoding of the joined matching rows themselves. *)
Theorem save_file_saves_rows_shown {R : Runtime} (name : string)
    (m : MainWindow) (fs : gmap string (list byte)) (data : list str)
    (q : str) (c : Codec) (bs : list byte) :
  name <> "" ->
  textfile_data m = Some data -> filter_button_disabled m = false ->
  live_filtering m = true -> q <> line_edit_text m ->
  lookup_codec (resolve_encoding (encoding m)) = Some c ->
  encode c (translate_newlines_out linesep
              (plain_text (join (filter_rows q data)))) = Some bs ->
  (line_edit_setText q;; save_file name) {| win := m; files := fs |}
  = (Ok tt,
     {| win := with_display_text (join (filter_rows q data))
                 (with_line_edit_text q m);
        files := <[name := bs]> fs |})
  /\ (plain_text (join (filter_rows q data)) = join (filter_rows q data) ->
      encode c (translate_newlines_out linesep (join (filter_rows q data)))
      = Some bs).
Proof.
  intros Hn Hd Hb Hl Hq Hc He.
  split; [|intros Hplain; rewrite Hplain in He; exact He].
  unfold mbind, M_bind, bind. rewrite line_edit_setText_run.
  rewrite bool_decide_eq_false_2 by exact Hq. rewrite Hl.
  rewrite filter_button_click_run.
  cbn [filter_button_disabled textfile_data line_edit_text with_line_edit_text].
  rewrite Hb, Hd. rewrite (save_file_run name _ Hn).
  cbn [win files encoding display_text with_display_text with_line_edit_text].
  rewrite Hc, He. reflexivity.
Qed.

Lemma save_file_saves_rows_shown_witness :
  (line_edit_setText (R:=posix) (u "City1");; save_file (R:=posix) "subset.csv")
    {| win := win (after (open_file (R:=posix) "cities.csv") fresh);
       files := files fresh |}
  = (Ok tt,
     {| win := with_display_text
                 (join (filter_rows (R:=posix) (u "City1")
                          [u "City,Year,Population" ++ [LF];
                           u "City1,1800,1000" ++ [LF];
                           u "City1,1900,10000" ++ [LF];
                           u "City2,1800,2000" ++ [LF]]))
                 (with_line_edit_text (u "City1")
                    (win (after (open_file (R:=posix) "cities.csv") fresh)));
        files := <["subset.csv" :=
                     b "City1,1800,1000" ++ [x0a]
                     ++ b "City1,1900,10000" ++ [x0a]]> (files fresh) |}).
Proof.
  apply (@save_file_saves_rows_shown posix "subset.csv"
           (win (after (open_file (R:=posix) "cities.csv") fresh))
           (files fresh)
           [u "City,Year,Population" ++ [LF]; u "City1,1800,1000" ++ [LF];
            u "City1,1900,10000" ++ [LF]; u "City2,1800,2000" ++ [LF]]
           (u "City1") ascii_codec
           (b "City1,1800,1000" ++ [x0a] ++ b "City1,1900,10000" ++ [x0a])).
  - discriminate.
  - vm_compute. reflexivity.
  - vm_compute. reflexivity.
  - vm_compute. reflexivity.
  - vm_compute. discriminate.
  - vm_compute. reflexivity.
  - vm_compute. reflexivity.
Defined.

(** X10. On a platform whose line separator is [\n], loading a file and
    saving the unfiltered view makes a byte-for-byte copy, provided the
    content is decoded by the first attempt, is not empty, holds no [\r], is
    given back by the display as it was set, and is encoded by the codec to
    the bytes it was decoded from. *)
Theorem save_file_copies_file {R : Runtime} (path newpath : string)
    (w : World) (bs : list byte) (c : Codec) (text : str) :
  path <> "" -> newpath <> "" ->
  files w !! path = Some bs ->
  lookup_codec (resolve_encoding (chardet_detect (readline_bytes 1000 bs)))
  = Some c ->
  decode c bs = Some text -> encode c text = Some bs ->
  text <> [] -> (CR ∉ text) ->
  linesep = [LF] -> plain_text text = text ->
  exists w1,
    open_file path w = (Ok tt, w1)
    /\ save_file newpath w1
       = (Ok tt, {| win := win w1; files := <[newpath := bs]> (files w) |}).
Proof.
  intros Hp Hn Hf Hc Hd He Hne HCR Hsep Hplain.
  assert (Hl : load_lines bs = Ok (readlines text)).
  { unfold load_lines, decode_lines. rewrite Hc, Hd.
    rewrite (universal_newlines_id text HCR). reflexivity. }
  destruct (max_by_len (readlines text)) as [longest|] eqn:Hmax.
  - eexists. split.
    + rewrite (open_file_run path w bs Hp Hf), Hl, Hmax. reflexivity.
    + rewrite (save_file_run newpath _ Hn).
      cbn [win files encoding display_text loaded_window
           with_open_file_path_label with_width with_display_disabled
           with_line_edit_disabled with_filter_button_disabled
           with_display_text with_textfile_data with_encoding].
      rewrite Hc, join_readlines, Hplain, Hsep, translate_newlines_out_LF, He.
      reflexivity.
  - apply max_by_len_None, readlines_nil in Hmax. contradiction.
Qed.

Lemma save_file_copies_file_witness :
  exists w1,
    open_file (R:=posix) "unix.txt" fresh = (Ok tt, w1)
    /\ save_file (R:=posix) "copy.txt" w1
       = (Ok tt,
          {| win := win w1; files := <["copy.txt" := unix_text]> (files fresh) |}).
Proof.
  apply (@save_file_copies_file posix "unix.txt" "copy.txt" fresh unix_text
           ascii_codec (u "ab" ++ [LF] ++ u "cd" ++ [LF])).
  - discriminate.
  - discriminate.
  - vm_compute. reflexivity.
  - vm_compute. reflexivity.
  - vm_compute. reflexivity.
  - vm_compute. reflexivity.
  - discriminate.
  - intros H. repeat (apply elem_of_cons in H as [H|H]; [discriminate|]).
    apply elem_of_nil in H. exact H.
  - reflexivity.
  - reflexivity.
Defined.

End SavingMore.

(** ** Live filtering *)

Section LiveFiltering.

Import Samples.

(** X11. In a window that holds a document with the filter button enabled:
    under live filtering, a change of the text of the line edit shows at
    once the rows that match the new text; without live filtering it only
    changes the text, and the display waits for the Filter button; in both
    modes, the text followed by the button shows the matching rows. *)
Theorem line_edit_setText_filters_live {R : Runtime} (s : str)
    (m : MainWindow) (fs : gmap string (list byte)) (data : list str) :
  textfile_data m = Some data -> filter_button_disabled m = false ->
  let shown := with_display_text (join (filter_rows s data))
                 (with_line_edit_text s m) in
  (live_filtering m = true -> s <> line_edit_text m ->
   line_edit_setText s {| win := m; files := fs |}
   = (Ok tt, {| win := shown; files := fs |}))
  /\ (live_filtering m = false ->
      line_edit_setText s {| win := m; files := fs |}
      = (Ok tt, {| win := with_line_edit_text s m; files := fs |}))
  /\ (line_edit_setText s;; filter_button_click) {| win := m; files := fs |}
     = (Ok tt, {| win := shown; files := fs |}).
Proof.
  intros Hd Hb shown. subst shown. split; [|split].
  - intros Hl Hs. rewrite line_edit_setText_run.
    rewrite bool_decide_eq_false_2 by exact Hs. rewrite Hl.
    rewrite filter_button_click_run.
    cbn [filter_button_disabled textfile_data line_edit_text with_line_edit_text].
    rewrite Hb, Hd. reflexivity.
  - intros Hl. rewrite line_edit_setText_run, Hl.
    destruct (bool_decide _); reflexivity.
  - unfold mbind, M_bind, bind. rewrite line_edit_setText_run.
    destruct (bool_decide _); [|destruct (live_filtering m)];
      rewrite ?filter_button_click_run;
      cbn [filter_button_disabled textfile_data line_edit_text
           with_line_edit_text];
      rewrite ?Hb, ?Hd; rewrite ?filter_button_click_run;
      cbn [filter_button_disabled textfile_data line_edit_text
           with_line_edit_text with_display_text];
      rewrite ?Hb, ?Hd; reflexivity.
Qed.

Lemma line_edit_setText_filters_live_witness :
  (line_edit_setText (R:=posix) (u "City2");; filter_button_click (R:=posix))
    {| win := win (after (open_file (R:=posix) "cities.csv") fresh);
       files := files fresh |}
  = (Ok tt,
     {| win := with_display_text (u "City2,1800,2000" ++ [LF])
                 (with_line_edit_text (u "City2")
                    (win (after (open_file (R:=posix) "cities.csv") fresh)));
        files := files fresh |}).
Proof.
  destruct (@line_edit_setText_filters_live posix (u "City2")
              (win (after (open_file (R:=posix) "cities.csv") fresh))
              (files fresh)
              [u "City,Year,Population" ++ [LF]; u "City1,1800,1000" ++ [LF];
               u "City1,1900,10000" ++ [LF]; u "City2,1800,2000" ++ [LF]])
    as (_ & _ & H).
  - vm_compute. reflexivity.
  - vm_compute. reflexivity.
  - exact H.
Defined.

(** X12. Filtering loses nothing: under live filtering, whatever text was
    entered, clearing the line edit shows the whole document again, and the
    rows of the document are those it had. *)
Theorem line_edit_clear_restores_file {R : Runtime} (s : str)
    (m : MainWindow) (fs : gmap string (list byte)) (data : list str) :
  textfile_data m = Some data -> filter_button_disabled m = false ->
  live_filtering m = true -> s <> [] ->
  let r := (line_edit_setText s;; line_edit_setText [])
             {| win := m; files := fs |} in
  fst r = Ok tt
  /\ display_text (win (snd r)) = join data
  /\ line_edit_text (win (snd r)) = []
  /\ textfile_data (win (snd r)) = Some data.
Proof.
  intros Hd Hb Hl Hs r. subst r.
  unfold mbind, M_bind, bind. rewrite line_edit_setText_run, Hl.
  assert (Hne : ([] : str) <> s) by congruence.
  destruct (bool_decide _).
  - rewrite line_edit_setText_run.
    cbn [line_edit_text live_filtering with_line_edit_text].
    rewrite bool_decide_eq_false_2 by exact Hne. rewrite Hl.
    rewrite filter_button_click_run.
    cbn [filter_button_disabled textfile_data line_edit_text with_line_edit_text].
    rewrite Hb, Hd. cbn. auto.
  - rewrite filter_button_click_run.
    cbn [filter_button_disabled textfile_data line_edit_text with_line_edit_text].
    rewrite Hb, Hd. rewrite line_edit_setText_run.
    cbn [line_edit_text live_filtering with_line_edit_text with_display_text].
    rewrite bool_decide_eq_false_2 by exact Hne. rewrite Hl.
    rewrite filter_button_click_run.
    cbn [filter_button_disabled textfile_data line_edit_text
         with_line_edit_text with_display_text].
    rewrite Hb, Hd. cbn. auto.
Qed.

Lemma line_edit_clear_restores_file_witness :
  display_text
    (win (snd ((line_edit_setText (R:=posix) (u "City2");;
                line_edit_setText (R:=posix) [])
                 {| win := win (after (open_file (R:=posix) "cities.csv") fresh);
                    files := files fresh |})))
  = join [u "City,Year,Population" ++ [LF]; u "City1,1800,1000" ++ [LF];
          u "City1,1900,10000" ++ [LF]; u "City2,1800,2000" ++ [LF]].
Proof.
  destruct (@line_edit_clear_restores_file posix (u "City2")
              (win (after (open_file (R:=posix) "cities.csv") fresh))
              (files fresh)
              [u "City,Year,Population" ++ [LF]; u "City1,1800,1000" ++ [LF];
               u "City1,1900,10000" ++ [LF]; u "City2,1800,2000" ++ [LF]])
    as (_ & H & _).
  - vm_compute. reflexivity.
  - vm_compute. reflexivity.
  - vm_compute. reflexivity.
  - discriminate.
  - exact H.
Defined.

(** X13. In a window that holds a document with the filter button enabled,
    switching live filtering on applies the text of the line edit at once,
    and switching it off changes the mode and nothing that is shown. *)
Theorem checkbox_click_applies_filter {R : Runtime} (m : MainWindow)
    (fs : gmap string (list byte)) (data : list str) :
  textfile_data m = Some data -> filter_button_disabled m = false ->
  do_live_search_checkbox_click {| win := m; files := fs |}
  = (Ok tt,
     {| win := if live_filtering m then with_live_filtering false m
               else with_display_text
                      (join (filter_rows (line_edit_text m) data))
                      (with_live_filtering true m);
        files := fs |}).
Proof.
  intros Hd Hb. rewrite checkbox_click_run.
  destruct (live_filtering m); [reflexivity|].
  rewrite filter_button_click_run.
  cbn [filter_button_disabled textfile_data line_edit_text with_live_filtering].
  rewrite Hb, Hd. reflexivity.
Qed.

Lemma checkbox_click_applies_filter_witness :
  display_text
    (win (run (R:=posix)
            [OpenFile "cities.csv"; ClickLive; EditText (u "City2")] fresh))
  = join [u "City,Year,Population" ++ [LF]; u "City1,1800,1000" ++ [LF];
          u "City1,1900,10000" ++ [LF]; u "City2,1800,2000" ++ [LF]]
  /\ do_live_search_checkbox_click (R:=posix)
       {| win := win (run (R:=posix)
                        [OpenFile "cities.csv"; ClickLive;
                         EditText (u "City2")] fresh);
          files := files fresh |}
     = (Ok tt,
        {| win := with_display_text (u "City2,1800,2000" ++ [LF])
                    (with_live_filtering true
                       (win (run (R:=posix)
                               [OpenFile "cities.csv"; ClickLive;
                                EditText (u "City2")] fresh)));
           files := files fresh |}).
Proof.
  split; [vm_compute; reflexivity|].
  rewrite (@checkbox_click_applies_filter posix
             (win (run (R:=posix)
                     [OpenFile "cities.csv"; ClickLive; EditText (u "City2")]
                     fresh))
             (files fresh)
             [u "City,Year,Population" ++ [LF]; u "City1,1800,1000" ++ [LF];
              u "City1,1900,10000" ++ [LF]; u "City2,1800,2000" ++ [LF]]).
  - vm_compute. reflexivity.
  - vm_compute. reflexivity.
  - vm_compute. reflexivity.
Defined.

End LiveFiltering.

(** ** What sessions keep *)

Section SessionsMore.

Import Samples.

Context {R : Runtime}.

Lemma filter_button_click_frame (m : MainWindow) (fs : gmap string (list byte)) :
  let r := filter_button_click {| win := m; files := fs |} in
  textfile_data (win (snd r)) = textfile_data m
  /\ encoding (win (snd r)) = encoding m
  /\ files (snd r) = fs.
Proof.
  cbv zeta. rewrite filter_button_click_run.
  destruct (filter_button_disabled m); [cbn; repeat split|].
  destruct (textfile_data m) eqn:E; cbn; rewrite ?E; repeat split.
Qed.

Lemma line_edit_setText_frame (s : str) (m : MainWindow)
    (fs : gmap string (list byte)) :
  let r := line_edit_setText s {| win := m; files := fs |} in
  textfile_data (win (snd r)) = textfile_data m
  /\ encoding (win (snd r)) = encoding m
  /\ files (snd r) = fs.
Proof.
  cbv zeta. rewrite line_edit_setText_run.
  destruct (bool_decide _); [cbn; repeat split|].
  destruct (live_filtering m); [|cbn; repeat split].
  apply (filter_button_click_frame (with_line_edit_text s m) fs).
Qed.

Lemma close_file_frame (m : MainWindow) (fs : gmap string (list byte)) :
  let r := close_file {| win := m; files := fs |} in
  textfile_data (win (snd r)) = textfile_data m
  /\ encoding (win (snd r)) = encoding m
  /\ files (snd r) = fs.
Proof.
  cbv zeta. pose proof (line_edit_setText_frame [] m fs) as H. cbv zeta in H.
  unfold close_file, display_setPlainText.
  unfold mbind, M_bind, bind, assign.
  destruct (line_edit_setText [] {| win := m; files := fs |}) as [[[]|e] [m' fs']];
    cbn in H |- *; exact H.
Qed.

Lemma checkbox_click_frame (m : MainWindow) (fs : gmap string (list byte)) :
  let r := do_live_search_checkbox_click {| win := m; files := fs |} in
  textfile_data (win (snd r)) = textfile_data m
  /\ encoding (win (snd r)) = encoding m
  /\ files (snd r) = fs.
Proof.
  cbv zeta. rewrite checkbox_click_run.
  destruct (live_filtering m); [cbn; repeat split|].
  apply (filter_button_click_frame (with_live_filtering true m) fs).
Qed.

Lemma save_file_frame (name : string) (w : World) :
  win (snd (save_file name w)) = win w.
Proof.
  destruct (decide (name = "")) as [->|Hn]; [reflexivity|].
  rewrite (save_file_run name w Hn).
  destruct (lookup_codec _) as [c|]; [destruct (encode c _)|]; reflexivity.
Qed.

Lemma open_file_files (file_path : string) (w : World) :
  files (snd (open_file file_path w)) = files w.
Proof.
  destruct w as [m fs].
  destruct (open_file_cases file_path m fs)
    as [[_ ->] | [(_ & _ & ->) | (bs & _ & _ & [[_ ->] | [[_ ->] | Hrun]])]];
    try reflexivity.
  destruct Hrun as (rows & longest & _ & _ & ->). reflexivity.
Qed.

Lemma step_keeps_document (e : Event) (w : World) :
  (forall file_path, e <> OpenFile file_path) ->
  textfile_data (win (step w e)) = textfile_data (win w)
  /\ encoding (win (step w e)) = encoding (win w).
Proof.
  intros He. destruct w as [m fs]. unfold step.
  destruct e as [p|name| |s| | |fs']; cbn [handle win].
  - destruct (He p eq_refl).
  - rewrite save_file_frame. auto.
  - destruct (close_file_frame m fs) as (H1 & H2 & _). auto.
  - destruct (line_edit_setText_frame s m fs) as (H1 & H2 & _). auto.
  - destruct (filter_button_click_frame m fs) as (H1 & H2 & _). auto.
  - destruct (checkbox_click_frame m fs) as (H1 & H2 & _). auto.
  - cbn. auto.
Qed.

(** X14. The document belongs to [open_file]: no other event changes the
    rows or the encoding of the window, whether it returns or raises. *)
Theorem only_open_file_changes_document (e : Event) (w : World) :
  (forall file_path, e <> OpenFile file_path) ->
  textfile_data (win (step w e)) = textfile_data (win w)
  /\ encoding (win (step w e)) = encoding (win w).
Proof. apply step_keeps_document. Qed.

(** X15. The files belong to [save_file]: loading, closing, filtering and
    switching the filtering mode write nothing, whether they return or
    raise. *)
Theorem only_save_file_writes_files (e : Event) (w : World) :
  (forall name, e <> SaveFile name) -> (forall fs, e <> External fs) ->
  files (step w e) = files w.
Proof.
  intros Hs Hx. destruct w as [m fs]. unfold step.
  destruct e as [p|name| |s| | |fs']; cbn [handle files].
  - apply open_file_files.
  - destruct (Hs name eq_refl).
  - apply (close_file_frame m fs).
  - apply (line_edit_setText_frame s m fs).
  - apply (filter_button_click_frame m fs).
  - apply (checkbox_click_frame m fs).
  - destruct (Hx fs' eq_refl).
Qed.

End SessionsMore.

Section SessionsWitnesses.

Import Samples.

Lemma only_open_file_changes_document_witness :
  textfile_data
    (win (step (R:=posix) (after (open_file (R:=posix) "unix.txt") fresh)
            CloseFile))
  = textfile_data (win (after (open_file (R:=posix) "unix.txt") fresh))
  /\ encoding
       (win (step (R:=posix) (after (open_file (R:=posix) "unix.txt") fresh)
               CloseFile))
     = encoding (win (after (open_file (R:=posix) "unix.txt") fresh)).
Proof.
  apply (@only_open_file_changes_document posix CloseFile
           (after (open_file (R:=posix) "unix.txt") fresh)).
  discriminate.
Defined.

Lemma only_save_file_writes_files_witness :
  files (step (R:=posix) fresh (OpenFile "bad.txt")) = files fresh.
Proof.
  apply (@only_save_file_writes_files posix (OpenFile "bad.txt") fresh);
    discriminate.
Defined.

End SessionsWitnesses.

(** ** What holds in every session *)

Section Reachable.

Import Samples.

Context {R : Runtime}.

(** X16. In every state that a session can reach from the start of the
    application, closing, editing the filter text, pressing the Filter
    button and switching the filtering mode never raise, and loading raises
    nothing but [OSError], [UnicodeDecodeError] and [ValueError]: no event
    of the window runs the filter without rows to filter. *)
Theorem session_events_raise_only (fs : gmap string (list byte))
    (es : list Event) (e : Event) :
  let r := fst (handle e (run es (started fs))) in
  match e with
  | OpenFile _ =>
    r = Ok tt \/ r = Raise OSError \/ r = Raise UnicodeDecodeError
    \/ r = Raise ValueError
  | SaveFile _ => r <> Raise TypeError
  | _ => r = Ok tt
  end.
Proof.
  intros r. subst r.
  assert (Hok : window_ok (win (run es (started fs))))
    by (apply run_ok, window_ok_init).
  destruct (handle_ok e _ Hok) as [_ H].
  destruct e; try exact H.
  destruct H as [-> | [-> | ->]]; discriminate.
Qed.

(** X17. In every state that a session can reach, the line edit, the filter
    button and the display are enabled together or disabled together, and
    when they are enabled the window holds the rows of a document. *)
Theorem session_tools_together (fs : gmap string (list byte))
    (es : list Event) :
  let m := win (run es (started fs)) in
  line_edit_disabled m = filter_button_disabled m
  /\ display_disabled m = filter_button_disabled m
  /\ (filter_button_disabled m = false ->
      exists rows, textfile_data m = Some rows).
Proof.
  intros m. subst m.
  destruct (run_ok es (started fs) window_ok_init) as (H1 & H2 & H3 & _).
  auto.
Qed.

(** X18. In every state that a session can reach, the rows that the window
    holds are lines as the reading cut them: no row is empty, a [\n] can
    only be the last character of a row, and no row holds a [\r]. *)
Theorem session_rows_shaped (fs : gmap string (list byte))
    (es : list Event) (rows : list str) :
  textfile_data (win (run es (started fs))) = Some rows ->
  Forall line_shaped rows /\ (CR ∉ join rows).
Proof.
  intros H.
  destruct (run_ok es (started fs) window_ok_init) as (_ & _ & _ & H4).
  apply H4, H.
Qed.

Lemma closed_stays (e : Event) (w : World) :
  (forall file_path, e <> OpenFile file_path) ->
  filter_button_disabled (win w) = true -> display_text (win w) = [] ->
  filter_button_disabled (win (step w e)) = true
  /\ display_text (win (step w e)) = [].
Proof.
  intros He Hb Hd. destruct w as [m fs]. cbn [win] in Hb, Hd. unfold step.
  destruct e as [p|name| |s| | |fs']; cbn [handle].
  - destruct (He p eq_refl).
  - rewrite save_file_frame. auto.
  - rewrite (close_file_run_ok m fs) by (rewrite Hb; discriminate). cbn. auto.
  - rewrite line_edit_setText_run.
    destruct (bool_decide _); [cbn; auto|].
    destruct (live_filtering m); [|cbn; auto].
    rewrite filter_button_click_run. cbn [filter_button_disabled with_line_edit_text].
    rewrite Hb. cbn. auto.
  - rewrite filter_button_click_run, Hb. cbn. auto.
  - rewrite checkbox_click_run.
    destruct (live_filtering m); [cbn; auto|].
    rewrite filter_button_click_run. cbn [filter_button_disabled with_live_filtering].
    rewrite Hb. cbn. auto.
  - cbn. auto.
Qed.

Lemma closed_run (es : list Event) (w : World) :
  Forall (fun e => forall file_path, e <> OpenFile file_path) es ->
  filter_button_disabled (win w) = true -> display_text (win w) = [] ->
  display_text (win (run es w)) = []
  /\ textfile_data (win (run es w)) = textfile_data (win w)
  /\ encoding (win (run es w)) = encoding (win w).
Proof.
  intros Hes. revert w. induction Hes as [|e es He _ IH]; intros w Hb Hd.
  - cbn. auto.
  - destruct (closed_stays e w He Hb Hd) as [Hb' Hd'].
    destruct (step_keeps_document e w He) as [Ht He'].
    destruct (IH (step w e) Hb' Hd') as (H1 & H2 & H3).
    change (run (e :: es) w) with (run es (step w e)).
    rewrite H1, H2, H3, Ht, He'. auto.
Qed.

(** X19. Once a file is closed nothing of it is shown until a file is
    opened: in every state that a session can reach, after [close_file]
    and any events other than a load (text edits, the Filter button, the
    filtering mode, saves, closes), the display is empty, although the
    window still holds the rows and the encoding it held. *)
Theorem close_file_hides_document (fs : gmap string (list byte))
    (es0 es : list Event) :
  Forall (fun e => forall file_path, e <> OpenFile file_path) es ->
  let w := run es0 (started fs) in
  display_text (win (run es (step w CloseFile))) = []
  /\ textfile_data (win (run es (step w CloseFile))) = textfile_data (win w)
  /\ encoding (win (run es (step w CloseFile))) = encoding (win w).
Proof.
  intros Hes w.
  assert (Hok : window_ok (win w)) by (apply run_ok, window_ok_init).
  destruct w as [m fs1] eqn:Hw. cbn [win] in Hok.
  assert (Hc : step {| win := m; files := fs1 |} CloseFile
               = {| win := closed_window m; files := fs1 |}).
  { unfold step. cbn [handle]. rewrite (close_file_run_ok m fs1 (proj1 Hok)).
    reflexivity. }
  rewrite Hc.
  destruct (closed_run es {| win := closed_window m; files := fs1 |} Hes
              eq_refl eq_refl) as (H1 & H2 & H3).
  rewrite H1, H2, H3. cbn. auto.
Qed.

End Reachable.

Section ReachableWitnesses.

Import Samples.

Lemma session_rows_shaped_witness :
  Forall line_shaped [u "ab" ++ [LF]; u "cd" ++ [LF]; u "ef" ++ [LF]; u "gh"]
  /\ (CR ∉ join [u "ab" ++ [LF]; u "cd" ++ [LF]; u "ef" ++ [LF]; u "gh"]).
Proof.
  apply (@session_rows_shaped posix (list_to_map disk)
           [OpenFile "unix.txt"; EditText (u "a"); OpenFile "bad.txt";
            OpenFile "mixed.txt"; SaveFile "copy.txt"]).
  vm_compute. reflexivity.
Defined.

Lemma close_file_hides_document_witness :
  display_text
    (win (run (R:=posix)
            [EditText (u "ab"); ClickFilter; ClickLive; ClickLive;
             SaveFile "copy.txt"; EditText (u "cd")]
            (step (R:=posix)
               (run (R:=posix) [OpenFile "unix.txt"]
                  (started (list_to_map disk)))
               CloseFile))) = []
  /\ textfile_data
       (win (run (R:=posix)
               [EditText (u "ab"); ClickFilter; ClickLive; ClickLive;
                SaveFile "copy.txt"; EditText (u "cd")]
               (step (R:=posix)
                  (run (R:=posix) [OpenFile "unix.txt"]
                     (started (list_to_map disk)))
                  CloseFile)))
     = textfile_data
         (win (run (R:=posix) [OpenFile "unix.txt"]
                 (started (list_to_map disk))))
  /\ encoding
       (win (run (R:=posix)
               [EditText (u "ab"); ClickFilter; ClickLive; ClickLive;
                SaveFile "copy.txt"; EditText (u "cd")]
               (step (R:=posix)
                  (run (R:=posix) [OpenFile "unix.txt"]
                     (started (list_to_map disk)))
                  CloseFile)))
     = encoding
         (win (run (R:=posix) [OpenFile "unix.txt"]
                 (started (list_to_map disk)))).
Proof.
  apply (@close_file_hides_document posix (list_to_map disk)
           [OpenFile "unix.txt"]
           [EditText (u "ab"); ClickFilter; ClickLive; ClickLive;
            SaveFile "copy.txt"; EditText (u "cd")]).
  repeat constructor; discriminate.
Defined.

End ReachableWitnesses.

(** ** Further properties of filtering *)

Section FilteringMore.

Context {R : Runtime}.

Lemma is_substring_trans (a c d : str) :
  is_substring a c -> is_substring c d -> is_substring a d.
Proof.
  intros (p1 & s1 & ->) (p2 & s2 & ->).
  exists (p2 ++ p1), (s1 ++ s2). rewrite <- !app_assoc. reflexivity.
Qed.

Lemma filter_filter_weaker {A} (f g : A -> bool) (l : list A) :
  (forall x, g x = true -> f x = true) ->
  List.filter g (List.filter f l) = List.filter g l.
Proof.
  intros H. induction l as [|x l IH]; simpl; [reflexivity|].
  destruct (f x) eqn:Ef; simpl.
  - rewrite IH. reflexivity.
  - destruct (g x) eqn:Eg; [|exact IH].
    apply H in Eg. congruence.
Qed.

Lemma filter_filter_comm {A} (f g : A -> bool) (l : list A) :
  List.filter f (List.filter g l) = List.filter g (List.filter f l).
Proof.
  induction l as [|x l IH]; simpl; [reflexivity|].
  destruct (f x) eqn:Ef, (g x) eqn:Eg; simpl; rewrite ?Ef, ?Eg, IH; reflexivity.
Qed.

(** X20. Refining the query never adds rows: when the lower-case form of
    [q1] occurs in the lower-case form of [q2], the rows that match [q2] are
    a subsequence of the rows that match [q1], and filtering with [q2] the
    rows that [q1] selected gives the rows that [q2] selects in the whole
    document. *)
Theorem filter_rows_refine (q1 q2 : str) (data : list str) :
  is_substring (str_lower q1) (str_lower q2) ->
  sublist (filter_rows q2 data) (filter_rows q1 data)
  /\ filter_rows q2 (filter_rows q1 data) = filter_rows q2 data.
Proof.
  intros H.
  assert (Hc : filter_rows q2 (filter_rows q1 data) = filter_rows q2 data).
  { rewrite !filter_rows_comprehension. apply filter_filter_weaker.
    intros x Hx. apply contains_spec. apply contains_spec in Hx.
    exact (is_substring_trans _ _ _ H Hx). }
  split; [|exact Hc].
  rewrite <- Hc, (filter_rows_comprehension q2). apply filter_sublist.
Qed.

(** X21. The query is compared without case: two queries with the same
    lower-case form select the same rows of every document. *)
Theorem filter_rows_case_insensitive (q1 q2 : str) (data : list str) :
  str_lower q1 = str_lower q2 -> filter_rows q1 data = filter_rows q2 data.
Proof.
  intros H. rewrite !filter_rows_comprehension, H. reflexivity.
Qed.

(** X22. Filters compose in any order: filtering with [q1] the rows that
    [q2] selected gives the rows that filtering with [q2] the rows that [q1]
    selected gives, namely the rows of the document that match both. *)
Theorem filter_rows_commute (q1 q2 : str) (data : list str) :
  filter_rows q1 (filter_rows q2 data) = filter_rows q2 (filter_rows q1 data)
  /\ (forall l, l ∈ filter_rows q1 (filter_rows q2 data) <->
                l ∈ data /\ is_substring (str_lower q1) (str_lower l)
                /\ is_substring (str_lower q2) (str_lower l)).
Proof.
  split.
  - rewrite !filter_rows_comprehension. apply filter_filter_comm.
  - intros l. rewrite !filter_rows_comprehension.
    rewrite !list_elem_of_In, !filter_In, !contains_spec. tauto.
Qed.

End FilteringMore.

Section FilteringWitnesses.

Import Samples.

Lemma filter_rows_refine_witness :
  sublist
    (filter_rows (R:=posix) (u "City1,18")
       [u "City,Year" ++ [LF]; u "City1,1800" ++ [LF]; u "city1,1900" ++ [LF]])
    (filter_rows (R:=posix) (u "CITY1")
       [u "City,Year" ++ [LF]; u "City1,1800" ++ [LF]; u "city1,1900" ++ [LF]])
  /\ filter_rows (R:=posix) (u "City1,18")
       (filter_rows (R:=posix) (u "CITY1")
          [u "City,Year" ++ [LF]; u "City1,1800" ++ [LF];
           u "city1,1900" ++ [LF]])
     = filter_rows (R:=posix) (u "City1,18")
         [u "City,Year" ++ [LF]; u "City1,1800" ++ [LF]; u "city1,1900" ++ [LF]].
Proof.
  apply (@filter_rows_refine posix (u "CITY1") (u "City1,18")).
  exists [], (u ",18"). vm_compute. reflexivity.
Defined.

Lemma filter_rows_case_insensitive_witness :
  filter_rows (R:=posix) (u "CITY1")
    [u "City,Year" ++ [LF]; u "City1,1800" ++ [LF]; u "city1,1900" ++ [LF]]
  = filter_rows (R:=posix) (u "city1")
      [u "City,Year" ++ [LF]; u "City1,1800" ++ [LF]; u "city1,1900" ++ [LF]].
Proof.
  apply (@filter_rows_case_insensitive posix (u "CITY1") (u "city1")).
  vm_compute. reflexivity.
Defined.

End FilteringWitnesses.
